(** * Interactive credentials of azure-identity: browser and device code

    A shallow embedding of
    [azure/identity/_credentials/browser.py] and
    [azure/identity/_credentials/device_code.py], and the properties of the
    two flows that the specification states.

    Python values are modelled by [pyval], dictionaries by [gmap string _],
    exceptions by [exn], and a call that may raise and that talks to the
    outside (sockets, the browser, MSAL, the clock) by the monad [M], which
    logs every outside call in program order and carries the exception. *)

From Stdlib Require Import ZArith QArith Qround String Ascii List Lia.
From Stdlib Require Import DecimalString Lqa.
From stdpp Require Import gmap strings.
Import ListNotations.

Local Open Scope Z_scope.
Local Open Scope string_scope.
Local Open Scope list_scope.

(** ** Python values *)

Inductive pyval : Type :=
| PyNone
| PyStr (s : string)
| PyInt (z : Z).

(** [bool(v)]: [None], the empty string and zero are false. *)
Definition truthy (v : pyval) : bool :=
  match v with
  | PyNone => false
  | PyStr s => negb (String.eqb s "")
  | PyInt z => negb (Z.eqb z 0)
  end.

(** [str(z)] for an integer. *)
Definition str_of_Z (z : Z) : string := NilZero.string_of_int (Z.to_int z).

(** ["{}".format(v)] *)
Definition format_py (v : pyval) : string :=
  match v with
  | PyNone => "None"
  | PyStr s => s
  | PyInt z => str_of_Z z
  end.

(** [c.lower()] on one ASCII character, and [s.lower()]. *)
Definition lower_ascii (c : ascii) : ascii :=
  let n := nat_of_ascii c in
  if (Nat.leb 65 n && Nat.leb n 90)%bool then ascii_of_nat (n + 32) else c.

Fixpoint lower (s : string) : string :=
  match s with
  | EmptyString => EmptyString
  | String c rest => String (lower_ascii c) (lower rest)
  end.

(** [needle in hay] on strings. *)
Fixpoint contains (needle hay : string) : bool :=
  String.prefix needle hay
  || match hay with
     | EmptyString => false
     | String _ rest => contains needle rest
     end.

(** [range(lo, lo + n)] *)
Definition range (lo : Z) (n : nat) : list Z :=
  map (fun i => lo + Z.of_nat i) (seq 0 n).

(** [int(t)] on a clock reading: truncation towards zero. *)
Definition int_of_time (t : Q) : Z := Z.quot (Qnum t) (Z.pos (Qden t)).

(** ** Exceptions and results *)

Inductive exn : Type :=
| socket_error (msg : string)
| ValueError (msg : string)
| KeyError (key : string)
| TypeError (msg : string)
| CredentialUnavailableError (message : string)
| ClientAuthenticationError (message : string)
| OtherError (name msg : string).

Inductive result (A : Type) : Type :=
| Return (a : A)
| Raise (e : exn).
Arguments Return {A} a.
Arguments Raise {A} e.

(** ** What the two credentials talk to *)

(** The object [_server_class(hostname, port, timeout=...)] returns. *)
Record Server : Type := {
  server_host : pyval;
  server_port : pyval;
  server_timeout : Z
}.

(** [urlparse(redirect_uri)], as far as the credential reads it: the
    [hostname] property and the [port] property, which raises [ValueError]
    on a port that is not a number in range. *)
Record ParseResult : Type := {
  hostname : pyval;
  port : result pyval
}.

(** [datetime.utcfromtimestamp(ts)] *)
Inductive datetime : Type := utcfromtimestamp (ts : Z).

Record World : Type := {
  urlparse : string -> ParseResult;
  (* the default listener class; binding raises socket.error when it fails *)
  AuthCodeRedirectServer : pyval -> pyval -> Z -> result Server;
  (* InteractiveCredential._get_app *)
  get_app : result unit;
  (* the MSAL application *)
  initiate_auth_code_flow :
    list string -> string -> string -> option string -> option string ->
    result (gmap string pyval);
  acquire_token_by_auth_code_flow :
    gmap string pyval -> option (gmap string string) -> list string ->
    option string -> result (gmap string pyval);
  initiate_device_flow : list string -> result (gmap string pyval);
  acquire_token_by_device_flow :
    gmap string pyval -> option (Q -> bool) -> option string ->
    result (gmap string pyval);
  (* the host *)
  webbrowser_open : pyval -> bool;
  platform_uname : string * string * string;
  subprocess_call : list string -> Z -> result Z;
  time_time : Q;
  within_dac_get : bool;
  (* the redirect that reaches a bound listener before its timeout, if any *)
  inbound_redirect : Server -> option (gmap string string)
}.

(** Every call that leaves the credential, in program order. *)
Inductive event : Type :=
| Bind (host prt : pyval) (timeout : Z) (bound : option Server)
| GetApp
| InitiateAuthCodeFlow (scopes : list string) (redirect_uri prompt : string)
    (claims_challenge login_hint : option string)
| WebbrowserOpen (url : pyval)
| Uname
| SubprocessCall (args : list string) (timeout : Z)
| WaitForRedirect (srv : Server)
| Serve (srv : Server) (query_params : gmap string string)
| Release (srv : Server)
| AcquireTokenByAuthCodeFlow (flow : gmap string pyval)
    (response : option (gmap string string)) (scopes : list string)
    (claims_challenge : option string)
| InitiateDeviceFlow (scopes : list string)
| PromptCallback (verification_uri user_code : pyval) (expires_on : datetime)
| Print (message : pyval)
| TimeTime
| AcquireTokenByDeviceFlow (flow : gmap string pyval)
    (exit_condition : option (Q -> bool)) (claims_challenge : option string).

(** ** The monad: a log of outside calls and a result or an exception *)

Definition M (A : Type) : Type := list event * result A.

Definition ret {A} (a : A) : M A := ([], Return a).
Definition raise {A} (e : exn) : M A := ([], Raise e).
Definition emit (ev : event) : M unit := ([ev], Return tt).
Definition lift {A} (r : result A) : M A := ([], r).

Definition bind {A B} (m : M A) (k : A -> M B) : M B :=
  match m with
  | (t, Return a) => let (t', r) := k a in (t ++ t', r)
  | (t, Raise e) => (t, Raise e)
  end.

(** [try: m  except <the exceptions h accepts> as ex: h ex] *)
Definition try_except {A} (m : M A) (h : exn -> option (M A)) : M A :=
  match m with
  | (t, Return a) => (t, Return a)
  | (t, Raise e) =>
      match h e with
      | Some m' => let (t', r) := m' in (t ++ t', r)
      | None => (t, Raise e)
      end
  end.

Declare Scope py_scope.
Delimit Scope py_scope with py.
Notation "x <- m ;; k" := (bind m (fun x => k))
  (at level 100, m at next level, right associativity) : py_scope.
Notation "m ;;; k" := (bind m (fun _ => k))
  (at level 100, right associativity) : py_scope.

Definition trace {A} (m : M A) : list event := fst m.
Definition outcome {A} (m : M A) : result A := snd m.

(** A function under the decorator [@wrap_exceptions]. The decorator is
    defined outside these sources and is a parameter here: for an exception
    [ex] the body raises, [wrap_exceptions ex] is what the decorator raises
    to the caller; the calls made and a value returned are the body's. *)
Definition decorated {A} (wrap_exceptions : exn -> exn) (body : M A) : M A :=
  match body with
  | (t, Return a) => (t, Return a)
  | (t, Raise e) => (t, Raise (wrap_exceptions e))
  end.

(** [d[k]] *)
Definition getitem (d : gmap string pyval) (k : string) : M pyval :=
  match d !! k with
  | Some v => ret v
  | None => raise (KeyError k)
  end.

(** [d.get(k)] *)
Definition dict_get (d : gmap string pyval) (k : string) : pyval :=
  match d !! k with
  | Some v => v
  | None => PyNone
  end.

(** [a == b] *)
Definition pyval_eqb (a b : pyval) : bool :=
  match a, b with
  | PyNone, PyNone => true
  | PyStr s, PyStr s' => String.eqb s s'
  | PyInt z, PyInt z' => Z.eqb z z'
  | _, _ => false
  end.

(** [a or b] *)
Definition py_or (a b : pyval) : pyval := if truthy a then a else b.

(** The double quote character, for messages that contain it. *)
Definition dquote : string := String (ascii_of_nat 34) EmptyString.

(** ** browser.py *)

Module Browser.

(** *** RedirectListener *)

(** Modelled from the spec: [wait_for_redirect] of the listener class
    [AuthCodeRedirectServer], which is defined outside these sources. It
    blocks up to the timeout, services the one redirect that arrives in
    time, if any, and releases the bound port on completion as on timeout;
    it returns the parsed query parameters, or nothing on expiry. *)
Definition wait_for_redirect (w : World) (srv : Server)
  : M (option (gmap string string)) :=
  (emit (WaitForRedirect srv);;;
   match inbound_redirect w srv with
   | Some query_params =>
       emit (Serve srv query_params);;;
       emit (Release srv);;;
       ret (Some query_params)
   | None =>
       emit (Release srv);;;
       ret None
   end)%py.

(** [bool(response)]: nothing and the empty mapping are false. *)
Definition truthy_response (response : option (gmap string string)) : bool :=
  match response with
  | None => false
  | Some query_params => negb (bool_decide (query_params = ∅))
  end.

(** *** BrowserLauncher *)

Definition powershell_args (url : pyval) : list string :=
  ["powershell.exe"; "-NoProfile"; "-Command";
   "Start-Process " +:+ dquote +:+ format_py url +:+ dquote].

Definition _open_browser (w : World) (url : pyval) : M bool :=
  (emit (WebbrowserOpen url);;;
   let opened := webbrowser_open w url in
   if negb opened then
     emit Uname;;;
     let '(uname0, _, uname2) := platform_uname w in
     let system := lower uname0 in
     let release := lower uname2 in
     if contains "microsoft" release && String.eqb system "linux" then
       let timeout := 5 in
       try_except
         (emit (SubprocessCall (powershell_args url) timeout);;;
          exit_code <- lift (subprocess_call w (powershell_args url) timeout);;
          ret (Z.eqb exit_code 0))
         (fun _ => Some (ret opened))
     else ret opened
   else ret opened)%py.

(** *** InteractiveBrowserCredential *)

Record InteractiveBrowserCredential : Type := {
  _parsed_url : option ParseResult;
  _login_hint : option string;
  _timeout : Z;
  _server_class : pyval -> pyval -> Z -> result Server
}.

(** The keyword arguments [__init__] pops. *)
Record kwargs : Type := {
  kw_redirect_uri : option string;
  kw_login_hint : option string;
  kw_timeout : option Z;
  kw_server_class : option (pyval -> pyval -> Z -> result Server)
}.

Definition redirect_uri_error : string :=
  dquote +:+ "redirect_uri" +:+ dquote
  +:+ " must be a URL with port number, for example "
  +:+ dquote +:+ "http://localhost:8400" +:+ dquote.

(** [urlparse(redirect_uri)] and the check on it. [a and b] evaluates [b],
    here the [port] property, only when [a] is true. *)
Definition parse_redirect_uri (w : World) (redirect_uri : option string)
  : result (option ParseResult) :=
  match redirect_uri with
  | Some uri =>
      if truthy (PyStr uri) then
        let parsed := urlparse w uri in
        if truthy (hostname parsed) then
          match port parsed with
          | Return p =>
              if truthy p then Return (Some parsed)
              else Raise (ValueError redirect_uri_error)
          | Raise e => Raise e
          end
        else Raise (ValueError redirect_uri_error)
      else Return None
  | None => Return None
  end.

(** [__init__]. The call of the base class's [__init__] that ends it is
    outside these sources and is left out. *)
Definition __init__ (w : World) (kw : kwargs)
  : result InteractiveBrowserCredential :=
  match parse_redirect_uri w (kw_redirect_uri kw) with
  | Raise e => Raise e
  | Return parsed =>
      Return {|
        _parsed_url := parsed;
        _login_hint := kw_login_hint kw;
        _timeout := default 300 (kw_timeout kw);
        _server_class := default (AuthCodeRedirectServer w) (kw_server_class kw)
      |}
  end.

(** [self._server_class(host, port, timeout=self._timeout)], logged. *)
Definition new_server (self : InteractiveBrowserCredential) (host prt : pyval)
  : M Server :=
  match _server_class self host prt (_timeout self) with
  | Return srv => (emit (Bind host prt (_timeout self) (Some srv));;; ret srv)%py
  | Raise e => (emit (Bind host prt (_timeout self) None);;; raise e)%py
  end.

(** [except socket.error as ex: raise CredentialUnavailableError(...) from ex] *)
Definition on_socket_error {A} (m : M A) : exn -> option (M A) :=
  fun ex => match ex with socket_error _ => Some m | _ => None end.

(** The branch [if self._parsed_url:]. The [port] property is read for the
    format and again for the call; it is read once here, it has no state. *)
Definition bind_explicit (self : InteractiveBrowserCredential)
  (parsed : ParseResult) : M (option Server * string) :=
  let unavailable redirect_uri :=
    raise (CredentialUnavailableError
             ("Couldn't start an HTTP server on " +:+ redirect_uri)) in
  match port parsed with
  | Raise e => try_except (raise e) (on_socket_error (unavailable ""))
  | Return p =>
      let redirect_uri :=
        "http://" +:+ format_py (hostname parsed) +:+ ":" +:+ format_py p in
      try_except
        (server <- new_server self (hostname parsed) p;;
         ret (Some server, redirect_uri))%py
        (on_socket_error (unavailable redirect_uri))
  end.

(** The loop [for port in range(8400, 9000):], started with
    [server = None] and [redirect_uri = ""]. *)
Fixpoint scan_ports (self : InteractiveBrowserCredential) (ports : list Z)
  : M (option Server * string) :=
  match ports with
  | [] => ret (None, "")
  | p :: rest =>
      try_except
        (server <- new_server self (PyStr "localhost") (PyInt p);;
         ret (Some server, "http://localhost:" +:+ str_of_Z p))%py
        (on_socket_error (scan_ports self rest))
  end.

Definition start_server (self : InteractiveBrowserCredential)
  : M (option Server * string) :=
  match _parsed_url self with
  | Some parsed => bind_explicit self parsed
  | None => scan_ports self (range 8400 600)
  end.

Definition timed_out (self : InteractiveBrowserCredential) : string :=
  "Timed out after waiting " +:+ str_of_Z (_timeout self)
  +:+ " seconds for the user to authenticate".

(** Lines 108 to 137 of [_request_token]: what follows a successful bind. *)
Definition authenticate (w : World) (self : InteractiveBrowserCredential)
  (scopes : list string) (claims : option string)
  (server : Server) (redirect_uri : string) : M (gmap string pyval) :=
  (emit GetApp;;;
   _ <- lift (get_app w);;
   emit (InitiateAuthCodeFlow scopes redirect_uri "select_account"
           claims (_login_hint self));;;
   flow <- lift (initiate_auth_code_flow w scopes redirect_uri
                   "select_account" claims (_login_hint self));;
   match flow !! "auth_uri" with
   | None =>
       raise (CredentialUnavailableError "Failed to begin authentication flow")
   | Some auth_uri =>
       opened <- _open_browser w auth_uri;;
       if negb opened then
         raise (CredentialUnavailableError "Failed to open a browser")
       else
         response <- wait_for_redirect w server;;
         if negb (truthy_response response) then
           if within_dac_get w then
             raise (CredentialUnavailableError (timed_out self))
           else raise (ClientAuthenticationError (timed_out self))
         else
           emit (AcquireTokenByAuthCodeFlow flow response scopes claims);;;
           lift (acquire_token_by_auth_code_flow w flow response scopes claims)
   end)%py.

(** The body of [_request_token]. The decorator [wrap_exceptions] around
    it is defined outside these sources. [if not server:] is the test for
    [None]: a listener object, an instance of a class that gives it no
    truth value of its own, is true. *)
Definition _request_token (w : World) (self : InteractiveBrowserCredential)
  (scopes : list string) (claims : option string) : M (gmap string pyval) :=
  (started <- start_server self;;
   match fst started with
   | None =>
       raise (CredentialUnavailableError
                "Couldn't start an HTTP server on localhost")
   | Some server => authenticate w self scopes claims server (snd started)
   end)%py.

(** [_request_token] as its callers have it, under [@wrap_exceptions]. *)
Definition decorated_request_token (wrap_exceptions : exn -> exn)
  (w : World) (self : InteractiveBrowserCredential)
  (scopes : list string) (claims : option string) : M (gmap string pyval) :=
  decorated wrap_exceptions (_request_token w self scopes claims).

End Browser.

(** ** device_code.py *)

Module DeviceCode.

Record DeviceCodeCredential : Type := {
  _timeout : option Z;
  _prompt_callback : option (pyval -> pyval -> datetime -> result unit)
}.

(** [__init__]; the base class's [__init__] is outside these sources. *)
Definition __init__ (timeout : option Z)
  (prompt_callback : option (pyval -> pyval -> datetime -> result unit))
  : DeviceCodeCredential :=
  {| _timeout := timeout; _prompt_callback := prompt_callback |}.

(** [datetime.utcfromtimestamp(v)] on a dictionary value, for a timestamp
    in the range of [datetime]; out of that range the call raises, which is
    not modelled, and the theorems on the errors of [_request_token] are
    stated for timestamps in the range. *)
Definition utc_of (v : pyval) : M datetime :=
  match v with
  | PyInt ts => ret (utcfromtimestamp ts)
  | _ => raise (TypeError "an integer is required")
  end.

(** [timeout < v] for an integer [timeout] and a dictionary value. *)
Definition int_lt (timeout : Z) (v : pyval) : M bool :=
  match v with
  | PyInt z => ret (Z.ltb timeout z)
  | _ => raise (TypeError "'<' not supported")
  end.

(** [lambda flow: time.time() > deadline], applied to the clock reading at
    the moment the collaborator evaluates it. *)
Definition exit_condition (deadline : Z) : Q -> bool :=
  fun now => negb (Qle_bool now (inject_Z deadline)).

(** Steps 1 and 2 of the flow are shared by the two branches of step 3. *)
Definition prompt (self : DeviceCodeCredential) (flow : gmap string pyval)
  : M unit :=
  match _prompt_callback self with
  | Some callback =>
      (verification_uri <- getitem flow "verification_uri";;
       user_code <- getitem flow "user_code";;
       expires_at <- getitem flow "expires_at";;
       expires_on <- utc_of expires_at;;
       emit (PromptCallback verification_uri user_code expires_on);;;
       lift (callback verification_uri user_code expires_on))%py
  | None =>
      (message <- getitem flow "message";;
       emit (Print message))%py
  end.

(** [self._timeout is not None and self._timeout < flow["expires_in"]];
    the caller's timeout when it is to be observed. *)
Definition observed_timeout (self : DeviceCodeCredential)
  (flow : gmap string pyval) : M (option Z) :=
  match _timeout self with
  | None => ret None
  | Some timeout =>
      (expires_in <- getitem flow "expires_in";;
       shorter <- int_lt timeout expires_in;;
       ret (if shorter : bool then Some timeout else None))%py
  end.

(** The body of [_request_token]; [wrap_exceptions] is outside these
    sources. *)
Definition _request_token (w : World) (self : DeviceCodeCredential)
  (scopes : list string) (claims : option string) : M (gmap string pyval) :=
  (emit GetApp;;;
   _ <- lift (get_app w);;
   emit (InitiateDeviceFlow scopes);;;
   flow <- lift (initiate_device_flow w scopes);;
   match flow !! "error" with
   | Some _ =>
       raise (ClientAuthenticationError
                ("Couldn't begin authentication: "
                 +:+ format_py (py_or (dict_get flow "error_description")
                                      (dict_get flow "error"))))
   | None =>
       prompt self flow;;;
       observed <- observed_timeout self flow;;
       result <-
         match observed with
         | Some timeout =>
             emit TimeTime;;;
             let deadline := int_of_time (time_time w) + timeout in
             emit (AcquireTokenByDeviceFlow flow
                     (Some (exit_condition deadline)) claims);;;
             lift (acquire_token_by_device_flow w flow
                     (Some (exit_condition deadline)) claims)
         | None =>
             emit (AcquireTokenByDeviceFlow flow None claims);;;
             lift (acquire_token_by_device_flow w flow None claims)
         end;;
       match result !! "access_token" with
       | None =>
           if pyval_eqb (dict_get result "error") (PyStr "authorization_pending")
           then raise (ClientAuthenticationError
                         "Timed out waiting for user to authenticate")
           else ret result
       | Some _ => ret result
       end
   end)%py.

(** [_request_token] as its callers have it, under [@wrap_exceptions]. *)
Definition decorated_request_token (wrap_exceptions : exn -> exn)
  (w : World) (self : DeviceCodeCredential)
  (scopes : list string) (claims : option string) : M (gmap string pyval) :=
  decorated wrap_exceptions (_request_token w self scopes claims).

End DeviceCode.

(** ** Concrete hosts, for the examples below *)

Module Sample.

(** A listener class on a host where the ports [occupied] selects are
    taken by other processes. *)
Definition listener (occupied : Z -> bool)
  : pyval -> pyval -> Z -> result Server :=
  fun host prt timeout =>
    match prt with
    | PyInt p =>
        if occupied p then Raise (socket_error "Address already in use")
        else Return {| server_host := host; server_port := prt;
                       server_timeout := timeout |}
    | _ => Raise (TypeError "an integer is required")
    end.

(** [urlparse] on the three addresses the examples use. *)
Definition parse (uri : string) : ParseResult :=
  if String.eqb uri "http://localhost:8400" then
    {| hostname := PyStr "localhost"; port := Return (PyInt 8400) |}
  else if String.eqb uri "http://localhost" then
    {| hostname := PyStr "localhost"; port := Return PyNone |}
  else {| hostname := PyNone; port := Return PyNone |}.

Definition auth_flow : gmap string pyval :=
  {[ "auth_uri" := PyStr "https://login.microsoftonline.com/authorize";
     "state" := PyStr "s" ]}.

Definition code_params : gmap string string :=
  {[ "code" := "c0de"; "state" := "s" ]}.

Definition token : gmap string pyval :=
  {[ "access_token" := PyStr "t0ken"; "expires_in" := PyInt 3600 ]}.

Definition pending : gmap string pyval :=
  {[ "error" := PyStr "authorization_pending" ]}.

Definition device_flow : gmap string pyval :=
  {[ "verification_uri" := PyStr "https://microsoft.com/devicelogin";
     "user_code" := PyStr "ABCD1234";
     "expires_in" := PyInt 600;
     "expires_at" := PyInt 1700000600;
     "message" := PyStr "To sign in, open the page and enter the code" ]}.

Definition wsl : string * string * string :=
  ("Linux", "host", "5.15.90.1-microsoft-standard-WSL2").

Definition debian : string * string * string :=
  ("Linux", "host", "6.1.0-18-amd64").

(** A host for the browser flow. *)
Definition browser_host (occupied : Z -> bool) (flow : gmap string pyval)
  (opens : bool) (uname : string * string * string) (powershell : result Z)
  (in_chain : bool) (redirect : option (gmap string string))
  (exchange : result (gmap string pyval)) : World :=
  {| urlparse := parse;
     AuthCodeRedirectServer := listener occupied;
     get_app := Return tt;
     initiate_auth_code_flow := fun _ _ _ _ _ => Return flow;
     acquire_token_by_auth_code_flow := fun _ _ _ _ => exchange;
     initiate_device_flow := fun _ => Return device_flow;
     acquire_token_by_device_flow := fun _ _ _ => Return token;
     webbrowser_open := fun _ => opens;
     platform_uname := uname;
     subprocess_call := fun _ _ => powershell;
     time_time := 1700000000 # 1;
     within_dac_get := in_chain;
     inbound_redirect := fun _ => redirect |}.

(** A host for the device code flow: the descriptor MSAL returns, the
    result of the polling, and the clock. *)
Definition device_host (flow poll_result : gmap string pyval) (now : Q)
  : World :=
  {| urlparse := parse;
     AuthCodeRedirectServer := listener (fun _ => false);
     get_app := Return tt;
     initiate_auth_code_flow := fun _ _ _ _ _ => Return auth_flow;
     acquire_token_by_auth_code_flow := fun _ _ _ _ => Return token;
     initiate_device_flow := fun _ => Return flow;
     acquire_token_by_device_flow := fun _ _ _ => Return poll_result;
     webbrowser_open := fun _ => true;
     platform_uname := debian;
     subprocess_call := fun _ _ => Return 0;
     time_time := now;
     within_dac_get := false;
     inbound_redirect := fun _ => None |}.

Definition no_kwargs : Browser.kwargs :=
  {| Browser.kw_redirect_uri := None; Browser.kw_login_hint := None;
     Browser.kw_timeout := None; Browser.kw_server_class := None |}.

Definition with_redirect_uri (uri : string) : Browser.kwargs :=
  {| Browser.kw_redirect_uri := Some uri; Browser.kw_login_hint := None;
     Browser.kw_timeout := None; Browser.kw_server_class := None |}.

(** The credential [__init__] builds from [kw] on host [w]; the
    one with no listener class when [__init__] raises. *)
Definition credential (w : World) (kw : Browser.kwargs)
  : Browser.InteractiveBrowserCredential :=
  match Browser.__init__ w kw with
  | Return self => self
  | Raise _ =>
      {| Browser._parsed_url := None; Browser._login_hint := None;
         Browser._timeout := 0;
         Browser._server_class := fun _ _ _ => Raise (TypeError "") |}
  end.

(** [str(ex)]: the message, and for a [KeyError] the key in quotes. *)
Definition str_of_exn (e : exn) : string :=
  match e with
  | KeyError key => "'" +:+ key +:+ "'"
  | socket_error msg | ValueError msg | TypeError msg
  | CredentialUnavailableError msg | ClientAuthenticationError msg
  | OtherError _ msg => msg
  end.

(** The decorator as azure-identity has it: the two errors of azure-core
    pass, any other exception is raised again as
    [ClientAuthenticationError] "Authentication failed: ..." with the
    text of the exception. [OtherError] stands here for exceptions that are
    not of azure-core, such as MSAL's. *)
Definition wrap_exceptions (e : exn) : exn :=
  match e with
  | CredentialUnavailableError _ | ClientAuthenticationError _ => e
  | _ => ClientAuthenticationError ("Authentication failed: " +:+ str_of_exn e)
  end.

End Sample.

(** ** The vocabulary of the statements *)

Definition is_bind (ev : event) : bool :=
  match ev with Bind _ _ _ _ => true | _ => false end.

Definition is_launch (ev : event) : bool :=
  match ev with
  | WebbrowserOpen _ | Uname | SubprocessCall _ _ => true
  | _ => false
  end.

(** The ports a [Bind] event names, and the calls of the fallback. *)
Definition bind_of (ev : event) : option (pyval * pyval * option Server) :=
  match ev with Bind host prt _ bound => Some (host, prt, bound) | _ => None end.

Definition fallback_of (ev : event) : option (list string * Z) :=
  match ev with SubprocessCall args timeout => Some (args, timeout) | _ => None end.

Definition binds (t : list event) : list (pyval * pyval * option Server) :=
  omap bind_of t.

Definition fallback_calls (t : list event) : list (list string * Z) :=
  omap fallback_of t.

Module BrowserSpec.
Import Browser.

(** [uname[0].lower() == "linux"] and ["microsoft" in uname[2].lower()] *)
Definition os_is_linux (w : World) : bool :=
  String.eqb (lower (fst (fst (platform_uname w)))) "linux".

Definition release_has_marker (w : World) : bool :=
  contains "microsoft" (lower (snd (platform_uname w))).

(** Success of the fallback: the call returned and the exit code is zero. *)
Definition exit_code_zero (r : result Z) : bool :=
  match r with Return exit_code => Z.eqb exit_code 0 | Raise _ => false end.

(** The fallback is due: the default browser did not open, on Linux, under
    a kernel whose release names the vendor. *)
Definition fallback_due (w : World) (url : pyval) : bool :=
  negb (webbrowser_open w url) && os_is_linux w && release_has_marker w.

Definition is_wait (ev : event) : bool :=
  match ev with
  | WaitForRedirect _ | Serve _ _ | Release _ => true
  | _ => false
  end.

(** *** The exit paths of [authenticate] *)

Section Paths.
Variables (w : World) (self : InteractiveBrowserCredential).
Variables (scopes : list string) (claims : option string).
Variables (server : Server) (redirect_uri : string).

Definition initiate_event : event :=
  InitiateAuthCodeFlow scopes redirect_uri "select_account" claims
    (_login_hint self).

Definition initiated : result (gmap string pyval) :=
  initiate_auth_code_flow w scopes redirect_uri "select_account" claims
    (_login_hint self).

Definition timeout_error : exn :=
  if within_dac_get w then CredentialUnavailableError (timed_out self)
  else ClientAuthenticationError (timed_out self).

(** One constructor for each way out of lines 108 to 137. *)
Inductive authenticate_path : list event -> result (gmap string pyval) -> Prop :=
| path_app_raises e :
    get_app w = Raise e ->
    authenticate_path [GetApp] (Raise e)
| path_initiate_raises e :
    get_app w = Return tt ->
    initiated = Raise e ->
    authenticate_path [GetApp; initiate_event] (Raise e)
| path_no_auth_uri flow :
    get_app w = Return tt ->
    initiated = Return flow ->
    flow !! "auth_uri" = None ->
    authenticate_path [GetApp; initiate_event]
      (Raise (CredentialUnavailableError "Failed to begin authentication flow"))
| path_no_browser flow auth_uri :
    get_app w = Return tt ->
    initiated = Return flow ->
    flow !! "auth_uri" = Some auth_uri ->
    outcome (_open_browser w auth_uri) = Return false ->
    authenticate_path
      (GetApp :: initiate_event :: trace (_open_browser w auth_uri))
      (Raise (CredentialUnavailableError "Failed to open a browser"))
| path_timed_out flow auth_uri response :
    get_app w = Return tt ->
    initiated = Return flow ->
    flow !! "auth_uri" = Some auth_uri ->
    outcome (_open_browser w auth_uri) = Return true ->
    outcome (wait_for_redirect w server) = Return response ->
    truthy_response response = false ->
    authenticate_path
      (GetApp :: initiate_event :: trace (_open_browser w auth_uri)
       ++ trace (wait_for_redirect w server))
      (Raise timeout_error)
| path_exchange flow auth_uri response :
    get_app w = Return tt ->
    initiated = Return flow ->
    flow !! "auth_uri" = Some auth_uri ->
    outcome (_open_browser w auth_uri) = Return true ->
    outcome (wait_for_redirect w server) = Return response ->
    truthy_response response = true ->
    authenticate_path
      (GetApp :: initiate_event :: trace (_open_browser w auth_uri)
       ++ trace (wait_for_redirect w server)
       ++ [AcquireTokenByAuthCodeFlow flow response scopes claims])
      (acquire_token_by_auth_code_flow w flow response scopes claims).

End Paths.

(** *** Starting the listener, and its socket *)

(** The log entry of an attempt on [localhost] that did not bind. *)
Definition refused (self : InteractiveBrowserCredential) (p : Z) : event :=
  Bind (PyStr "localhost") (PyInt p) (_timeout self) None.

(** [_server_class("localhost", p, ...)] raises [socket.error]. *)
Definition taken (self : InteractiveBrowserCredential) (p : Z) : Prop :=
  exists msg,
    _server_class self (PyStr "localhost") (PyInt p) (_timeout self)
    = Raise (socket_error msg).

Definition server_eqb (a b : Server) : bool :=
  pyval_eqb (server_host a) (server_host b)
  && pyval_eqb (server_port a) (server_port b)
  && Z.eqb (server_timeout a) (server_timeout b).

(** The listeners still bound after the calls of log [t], given the ones
    bound before it. *)
Fixpoint still_bound (t : list event) (bound : list Server) : list Server :=
  match t with
  | [] => bound
  | Bind _ _ _ (Some srv) :: t' => still_bound t' (srv :: bound)
  | Release srv :: t' =>
      still_bound t' (List.filter (fun s => negb (server_eqb s srv)) bound)
  | _ :: t' => still_bound t' bound
  end.

(** The inbound requests the listeners serviced. *)
Definition serve_of (ev : event) : option (Server * gmap string string) :=
  match ev with Serve srv query_params => Some (srv, query_params) | _ => None end.

Definition served (t : list event) : list (Server * gmap string string) :=
  omap serve_of t.

(** An event that neither binds nor releases a socket. *)
Definition keeps_sockets (ev : event) : bool :=
  match ev with
  | Bind _ _ _ (Some _) | Release _ => false
  | _ => true
  end.

(** The message the specification gives for this failure, for the redirect
    URI [uri] the caller configured. *)
Definition stated_bind_message (uri : string) : string :=
  "couldn't start a local HTTP server on " +:+ uri.

(** *** Hosts and credentials of the examples *)

(** A host with every port free, a browser that opens and no redirect:
    inside a credential chain, and outside one. *)
Definition silent_host (in_chain : bool) : World :=
  Sample.browser_host (fun _ => false) Sample.auth_flow true Sample.debian
    (Return 0) in_chain None (Return Sample.token).

Definition first_listener : Server :=
  {| server_host := PyStr "localhost"; server_port := PyInt 8400;
     server_timeout := 300 |}.




(** A host under the Windows subsystem for Linux with no Linux browser;
    [powershell] is what the call of PowerShell answers there. *)
Definition wsl_host (powershell : result Z) : World :=
  Sample.browser_host (fun _ => false) Sample.auth_flow false Sample.wsl
    powershell false None (Return Sample.token).

Definition login_page : pyval :=
  PyStr "https://login.microsoftonline.com/authorize".

(** A host whose flow comes back without [auth_uri], and a host on plain
    Linux whose browser does not open. *)
Definition bare_flow_host : World :=
  Sample.browser_host (fun _ => false) {[ "error" := PyStr "invalid_client" ]}
    true Sample.debian (Return 0) false None (Return Sample.token).

Definition headless_host : World :=
  Sample.browser_host (fun _ => false) Sample.auth_flow false Sample.debian
    (Return 0) false None (Return Sample.token).

(** A host on which other processes hold the ports 8400 to 8405, and one
    on which every port is held. *)
Definition crowded_host : World :=
  Sample.browser_host (fun p => Z.ltb p 8406) Sample.auth_flow true
    Sample.debian (Return 0) false (Some Sample.code_params)
    (Return Sample.token).

Definition full_host : World :=
  Sample.browser_host (fun _ => true) Sample.auth_flow true
    Sample.debian (Return 0) false (Some Sample.code_params)
    (Return Sample.token).

(** The credential of a caller who passed [redirect_uri], on a host where
    the port of that URI is taken. *)
Definition explicit_credential : InteractiveBrowserCredential :=
  Sample.credential full_host (Sample.with_redirect_uri "http://localhost:8400").

End BrowserSpec.

Module DeviceSpec.
Import DeviceCode.

Definition is_poll (ev : event) : bool :=
  match ev with AcquireTokenByDeviceFlow _ _ _ => true | _ => false end.

(** The result of the polling means the deadline was reached while the
    user had not yet authenticated. *)
Definition still_pending (result : gmap string pyval) : bool :=
  match result !! "access_token" with
  | None => pyval_eqb (dict_get result "error") (PyStr "authorization_pending")
  | Some _ => false
  end.

(** The argument [exit_condition=] of the polling call, for the timeout
    [observed_timeout] answered. *)
Definition exit_condition_for (w : World) (observed : option Z)
  : option (Q -> bool) :=
  match observed with
  | Some timeout =>
      Some (exit_condition (int_of_time (time_time w) + timeout))
  | None => None
  end.

(** A device code that lives 600 seconds and a user who does not
    authenticate; the clock reads half a second past 1700000000 when the
    polling starts. *)
Definition idle_host : World :=
  Sample.device_host Sample.device_flow Sample.pending (17000000005 # 10).

End DeviceSpec.

(** ** Further vocabulary: the whole of the two flows *)

Module DeviceCases.
Import DeviceCode DeviceSpec.

(** The polling calls of a log, and its clock readings. *)
Definition poll_of (ev : event)
  : option (gmap string pyval * option (Q -> bool) * option string) :=
  match ev with
  | AcquireTokenByDeviceFlow flow ec claims => Some (flow, ec, claims)
  | _ => None
  end.

Definition polls (t : list event)
  : list (gmap string pyval * option (Q -> bool) * option string) :=
  omap poll_of t.

Definition is_clock (ev : event) : bool :=
  match ev with TimeTime => true | _ => false end.

(** [time.time()] is read when a timeout is observed, and only then. *)
Definition clock_reads (observed : option Z) : list event :=
  match observed with Some _ => [TimeTime] | None => [] end.

(** The error raised for a flow that MSAL could not begin. *)
Definition begin_error (flow : gmap string pyval) : exn :=
  ClientAuthenticationError
    ("Couldn't begin authentication: "
     +:+ format_py (py_or (dict_get flow "error_description")
                          (dict_get flow "error"))).

(** What [_request_token] makes of the answer of the polling call. *)
Definition after_poll (r : result (gmap string pyval))
  : result (gmap string pyval) :=
  match r with
  | Return result =>
      if still_pending result
      then Raise (ClientAuthenticationError
                    "Timed out waiting for user to authenticate")
      else Return result
  | Raise e => Raise e
  end.

Section Paths.
Variables (w : World) (self : DeviceCodeCredential).
Variables (scopes : list string) (claims : option string).

(** One constructor for each way out of [_request_token]. *)
Inductive device_path : list event -> result (gmap string pyval) -> Prop :=
| device_app_raises e :
    get_app w = Raise e ->
    device_path [GetApp] (Raise e)
| device_initiate_raises e :
    get_app w = Return tt ->
    initiate_device_flow w scopes = Raise e ->
    device_path [GetApp; InitiateDeviceFlow scopes] (Raise e)
| device_not_begun flow :
    get_app w = Return tt ->
    initiate_device_flow w scopes = Return flow ->
    flow !! "error" <> None ->
    device_path [GetApp; InitiateDeviceFlow scopes] (Raise (begin_error flow))
| device_prompt_raises flow e :
    get_app w = Return tt ->
    initiate_device_flow w scopes = Return flow ->
    flow !! "error" = None ->
    outcome (prompt self flow) = Raise e ->
    device_path
      (GetApp :: InitiateDeviceFlow scopes :: trace (prompt self flow))
      (Raise e)
| device_timeout_raises flow e :
    get_app w = Return tt ->
    initiate_device_flow w scopes = Return flow ->
    flow !! "error" = None ->
    outcome (prompt self flow) = Return tt ->
    outcome (observed_timeout self flow) = Raise e ->
    device_path
      (GetApp :: InitiateDeviceFlow scopes :: trace (prompt self flow))
      (Raise e)
| device_polled flow observed :
    get_app w = Return tt ->
    initiate_device_flow w scopes = Return flow ->
    flow !! "error" = None ->
    outcome (prompt self flow) = Return tt ->
    outcome (observed_timeout self flow) = Return observed ->
    device_path
      (GetApp :: InitiateDeviceFlow scopes :: trace (prompt self flow)
       ++ clock_reads observed
       ++ [AcquireTokenByDeviceFlow flow (exit_condition_for w observed) claims])
      (after_poll (acquire_token_by_device_flow w flow
                     (exit_condition_for w observed) claims)).

End Paths.


(** The exception [e] came out of a call the credential made: [_get_app],
    MSAL, or the prompt callback. *)
Definition raised_outside (w : World) (self : DeviceCodeCredential)
  (scopes : list string) (claims : option string) (e : exn) : Prop :=
  get_app w = Raise e
  \/ initiate_device_flow w scopes = Raise e
  \/ (exists callback verification_uri user_code expires_on,
        _prompt_callback self = Some callback
        /\ callback verification_uri user_code expires_on = Raise e)
  \/ (exists flow ec, acquire_token_by_device_flow w flow ec claims = Raise e).

(** *** Hosts and credentials of the examples *)

(** A flow that MSAL could not begin, with and without a description. *)
Definition refused_flow : gmap string pyval :=
  {[ "error" := PyStr "invalid_client";
     "error_description" := PyStr "AADSTS7000218: no client secret" ]}.

Definition terse_refused_flow : gmap string pyval :=
  {[ "error" := PyStr "invalid_client" ]}.

(** A flow without the key [expires_in]. *)
Definition open_ended_flow : gmap string pyval :=
  {[ "verification_uri" := PyStr "https://microsoft.com/devicelogin";
     "user_code" := PyStr "ABCD1234";
     "expires_at" := PyInt 1700000600;
     "message" := PyStr "To sign in, open the page and enter the code" ]}.

(** A callback that shows the code to the user and returns. *)
Definition show_code : pyval -> pyval -> datetime -> result unit :=
  fun _ _ _ => Return tt.

(** A host on which the user authenticates in time, and one on which the
    polling itself fails. *)
Definition prompt_host : World :=
  Sample.device_host Sample.device_flow Sample.token (17000000005 # 10).

Definition device_host_with (flow : gmap string pyval) : World :=
  Sample.device_host flow Sample.token (17000000005 # 10).


End DeviceCases.

Module BrowserCases.
Import Browser BrowserSpec.

(** The listeners a log bound, and its token exchanges. *)
Definition bound_of (ev : event) : option Server :=
  match ev with Bind _ _ _ (Some srv) => Some srv | _ => None end.

Definition bound_servers (t : list event) : list Server := omap bound_of t.

Definition is_exchange (ev : event) : bool :=
  match ev with AcquireTokenByAuthCodeFlow _ _ _ _ => true | _ => false end.

(** The exception [e] came out of a call the credential made: the [port]
    property of the parsed URL, the listener class, [_get_app] or MSAL. *)
Definition raised_outside (w : World) (self : InteractiveBrowserCredential)
  (scopes : list string) (claims : option string) (e : exn) : Prop :=
  (exists parsed, _parsed_url self = Some parsed /\ port parsed = Raise e)
  \/ (exists host prt, _server_class self host prt (_timeout self) = Raise e)
  \/ get_app w = Raise e
  \/ (exists redirect_uri,
        initiate_auth_code_flow w scopes redirect_uri "select_account" claims
          (_login_hint self) = Raise e)
  \/ (exists flow response,
        acquire_token_by_auth_code_flow w flow response scopes claims
        = Raise e).

(** [e] is not [socket.error]. *)
Definition not_socket_error (e : exn) : Prop :=
  forall msg, e <> socket_error msg.

(** [e] is of a class that is not [OSError], of which [socket.error] is
    another name, nor one of its subclasses; the class of an [OtherError]
    is not known. *)
Definition not_os_error (e : exn) : Prop :=
  match e with
  | socket_error _ | OtherError _ _ => False
  | _ => True
  end.

(** *** Hosts and credentials of the examples *)

(** A listener class that finds 8400 and 8401 taken and fails in its own
    code on 8402. *)
Definition clumsy_listener : pyval -> pyval -> Z -> result Server :=
  fun host prt timeout =>
    match prt with
    | PyInt p =>
        if Z.ltb p 8402 then Raise (socket_error "Address already in use")
        else if Z.eqb p 8402 then Raise (TypeError "handler is not callable")
        else Return {| server_host := host; server_port := prt;
                       server_timeout := timeout |}
    | _ => Raise (TypeError "an integer is required")
    end.

Definition clumsy_credential : InteractiveBrowserCredential :=
  {| _parsed_url := None; _login_hint := None; _timeout := 300;
     _server_class := clumsy_listener |}.

Definition clumsy_explicit_credential : InteractiveBrowserCredential :=
  {| _parsed_url := Some {| hostname := PyStr "localhost";
                            port := Return (PyInt 8402) |};
     _login_hint := None; _timeout := 300;
     _server_class := clumsy_listener |}.

(** [urlparse] on a redirect URI with a scheme, an upper case host and a
    path: the host comes back in lower case. *)
Definition parse_callback (uri : string) : ParseResult :=
  if String.eqb uri "https://LocalHost:8400/callback" then
    {| hostname := PyStr "localhost"; port := Return (PyInt 8400) |}
  else Sample.parse uri.

(** A host on which everything succeeds; [redirect] is what reaches the
    listener. *)
Definition fair_host (redirect : option (gmap string string)) : World :=
  {| urlparse := parse_callback;
     AuthCodeRedirectServer := Sample.listener (fun _ => false);
     get_app := Return tt;
     initiate_auth_code_flow := fun _ _ _ _ _ => Return Sample.auth_flow;
     acquire_token_by_auth_code_flow := fun _ _ _ _ => Return Sample.token;
     initiate_device_flow := fun _ => Return Sample.device_flow;
     acquire_token_by_device_flow := fun _ _ _ => Return Sample.token;
     webbrowser_open := fun _ => true;
     platform_uname := Sample.debian;
     subprocess_call := fun _ _ => Return 0;
     time_time := 1700000000 # 1;
     within_dac_get := true;
     inbound_redirect := fun _ => redirect |}.

Definition callback_credential : InteractiveBrowserCredential :=
  Sample.credential (fair_host (Some Sample.code_params))
    (Sample.with_redirect_uri "https://LocalHost:8400/callback").

(** A host whose [_get_app] fails in MSAL. *)
Definition no_app_host : World :=
  {| urlparse := Sample.parse;
     AuthCodeRedirectServer := Sample.listener (fun _ => false);
     get_app := Raise (ValueError "invalid tenant");
     initiate_auth_code_flow := fun _ _ _ _ _ => Return Sample.auth_flow;
     acquire_token_by_auth_code_flow := fun _ _ _ _ => Return Sample.token;
     initiate_device_flow := fun _ => Return Sample.device_flow;
     acquire_token_by_device_flow := fun _ _ _ => Return Sample.token;
     webbrowser_open := fun _ => true;
     platform_uname := Sample.debian;
     subprocess_call := fun _ _ => Return 0;
     time_time := 1700000000 # 1;
     within_dac_get := true;
     inbound_redirect := fun _ => None |}.

End BrowserCases.

(** ** Reasoning about runs *)

Lemma trace_bind {A B} (m : M A) (k : A -> M B) :
  trace (bind m k)
  = trace m ++ match outcome m with
               | Return a => trace (k a)
               | Raise _ => []
               end.
Proof.
  destruct m as [t [a | e]]; simpl.
  - destruct (k a); reflexivity.
  - symmetry; apply app_nil_r.
Qed.

Lemma outcome_bind {A B} (m : M A) (k : A -> M B) :
  outcome (bind m k)
  = match outcome m with
    | Return a => outcome (k a)
    | Raise e => Raise e
    end.
Proof.
  destruct m as [t [a | e]]; simpl; [destruct (k a) |]; reflexivity.
Qed.

(** The decorator keeps the log and a value returned. *)
Lemma trace_decorated {A} (wrap_exceptions : exn -> exn) (m : M A) :
  trace (decorated wrap_exceptions m) = trace m.
Proof. destruct m as [t [a | e]]; reflexivity. Qed.

Lemma outcome_decorated {A} (wrap_exceptions : exn -> exn) (m : M A) :
  outcome (decorated wrap_exceptions m)
  = match outcome m with
    | Return a => Return a
    | Raise e => Raise (wrap_exceptions e)
    end.
Proof. destruct m as [t [a | e]]; reflexivity. Qed.

Module BrowserFacts.
Import Browser BrowserSpec.

Lemma open_browser_run (w : World) (url : pyval) :
  _open_browser w url
  = (WebbrowserOpen url ::
       (if webbrowser_open w url then []
        else Uname ::
          (if release_has_marker w && os_is_linux w
           then [SubprocessCall (powershell_args url) 5] else [])),
     Return (if webbrowser_open w url then true
             else if release_has_marker w && os_is_linux w
                  then exit_code_zero (subprocess_call w (powershell_args url) 5)
                  else false)).
Proof.
  unfold _open_browser, release_has_marker, os_is_linux.
  destruct (webbrowser_open w url) eqn:Hopen; simpl; [reflexivity |].
  destruct (platform_uname w) as [[uname0 uname1] uname2]; simpl.
  destruct (contains "microsoft" (lower uname2) && String.eqb (lower uname0) "linux");
    simpl; [| reflexivity].
  destruct (subprocess_call w (powershell_args url) 5); reflexivity.
Qed.

Lemma open_browser_launch (w : World) (url : pyval) :
  Forall (fun ev => is_launch ev = true) (trace (_open_browser w url)).
Proof.
  rewrite open_browser_run; unfold trace, fst.
  destruct (webbrowser_open w url); [repeat constructor |].
  destruct (release_has_marker w && os_is_linux w); repeat constructor.
Qed.

(** *** The exit paths of [authenticate] *)

Section Paths.
Variables (w : World) (self : InteractiveBrowserCredential).
Variables (scopes : list string) (claims : option string).
Variables (server : Server) (redirect_uri : string).

Lemma wait_for_redirect_run :
  wait_for_redirect w server
  = (WaitForRedirect server ::
       match inbound_redirect w server with
       | Some query_params => [Serve server query_params; Release server]
       | None => [Release server]
       end,
     Return (inbound_redirect w server)).
Proof.
  unfold wait_for_redirect.
  destruct (inbound_redirect w server); reflexivity.
Qed.

Lemma authenticate_path_of :
  authenticate_path w self scopes claims server redirect_uri
    (trace (authenticate w self scopes claims server redirect_uri))
    (outcome (authenticate w self scopes claims server redirect_uri)).
Proof.
  unfold authenticate.
  destruct (get_app w) as [[] | e] eqn:Happ; cbn [bind emit lift app];
    [| apply path_app_raises; exact Happ].
  fold (initiate_event self scopes claims redirect_uri).
  fold (initiated w self scopes claims redirect_uri).
  destruct (initiated w self scopes claims redirect_uri) as [flow | e] eqn:Hflow; cbn [bind emit lift app];
    [| apply path_initiate_raises; assumption].
  destruct (flow !! "auth_uri") as [auth_uri |] eqn:Hauth; cbn [raise];
    [| eapply path_no_auth_uri; eassumption].
  pose proof (open_browser_run w auth_uri) as Hrun.
  destruct (_open_browser w auth_uri) as [launch opened] eqn:Hlaunch.
  injection Hrun as Hl Ho.
  assert (Hlt : launch = trace (_open_browser w auth_uri))
    by (rewrite Hlaunch; reflexivity).
  assert (Hot : opened = outcome (_open_browser w auth_uri))
    by (rewrite Hlaunch; reflexivity).
  rewrite Ho. rewrite Ho in Hot. clear Hl Ho.
  match goal with |- context [Return ?b] => destruct b eqn:Hb end.
  - pose proof wait_for_redirect_run as Hwait.
    assert (Hw : trace (wait_for_redirect w server)
                 = WaitForRedirect server ::
                     match inbound_redirect w server with
                     | Some query_params =>
                         [Serve server query_params; Release server]
                     | None => [Release server]
                     end) by (rewrite Hwait; reflexivity).
    assert (Hr : outcome (wait_for_redirect w server)
                 = Return (inbound_redirect w server))
      by (rewrite Hwait; reflexivity).
    rewrite Hwait.
    destruct (truthy_response (inbound_redirect w server)) eqn:Htruthy;
      cbn [bind negb raise emit lift app trace outcome fst snd];
      rewrite Htruthy;
      cbn [bind negb raise emit lift app trace outcome fst snd].
    + rewrite (app_comm_cons _ _ (WaitForRedirect server)), <- Hw, Hlt.
      eapply path_exchange; eauto.
    + pose proof (path_timed_out w self scopes claims server redirect_uri
                    flow auth_uri _ Happ Hflow Hauth
                    (eq_sym Hot) Hr Htruthy) as Hpath.
      unfold timeout_error in Hpath.
      destruct (within_dac_get w);
        cbn [bind negb raise emit lift app trace outcome fst snd];
        rewrite app_nil_r, <- Hw, Hlt; exact Hpath.
  - cbn [bind negb raise emit lift app trace outcome fst snd].
    rewrite Hlt, app_nil_r. eapply path_no_browser; eauto.
Qed.

End Paths.

(** *** Starting the listener *)

Section Listener.
Variable self : InteractiveBrowserCredential.

Lemma new_server_run (host prt : pyval) :
  new_server self host prt
  = ([Bind host prt (_timeout self)
        match _server_class self host prt (_timeout self) with
        | Return srv => Some srv
        | Raise _ => None
        end],
     _server_class self host prt (_timeout self)).
Proof.
  unfold new_server.
  destruct (_server_class self host prt (_timeout self)); reflexivity.
Qed.

Lemma scan_ports_exhausted (ports : list Z) :
  Forall (taken self) ports ->
  scan_ports self ports = (map (refused self) ports, Return (None, "")).
Proof.
  induction 1 as [| p rest [msg Hp] _ IH]; [reflexivity |].
  cbn [scan_ports map]. rewrite new_server_run, Hp.
  cbn [bind try_except on_socket_error]. rewrite IH. reflexivity.
Qed.

Lemma scan_ports_first (failed : list Z) (p : Z) (rest : list Z) (srv : Server) :
  Forall (taken self) failed ->
  _server_class self (PyStr "localhost") (PyInt p) (_timeout self) = Return srv ->
  scan_ports self (failed ++ p :: rest)
  = (map (refused self) failed
       ++ [Bind (PyStr "localhost") (PyInt p) (_timeout self) (Some srv)],
     Return (Some srv, "http://localhost:" +:+ str_of_Z p)).
Proof.
  intros Hfailed Hp.
  induction Hfailed as [| q failed [msg Hq] _ IH].
  - cbn [scan_ports map app]. rewrite new_server_run, Hp. reflexivity.
  - cbn [scan_ports map app]. rewrite new_server_run, Hq.
    cbn [bind try_except on_socket_error]. rewrite IH. reflexivity.
Qed.

Lemma scan_ports_binds (ports : list Z) :
  Forall (fun ev => is_bind ev = true) (trace (scan_ports self ports)).
Proof.
  induction ports as [| p rest IH]; [constructor |].
  cbn [scan_ports]. rewrite new_server_run.
  destruct (_server_class self (PyStr "localhost") (PyInt p) (_timeout self))
    as [srv | e]; cbn [bind try_except ret app trace fst].
  - repeat constructor.
  - destruct e; cbn [on_socket_error]; try (repeat constructor).
    destruct (scan_ports self rest) as [t r]. constructor; [reflexivity | exact IH].
Qed.

Lemma bind_explicit_run (parsed : ParseResult) (p : pyval) :
  port parsed = Return p ->
  let redirect_uri :=
    "http://" +:+ format_py (hostname parsed) +:+ ":" +:+ format_py p in
  bind_explicit self parsed
  = ([Bind (hostname parsed) p (_timeout self)
        match _server_class self (hostname parsed) p (_timeout self) with
        | Return srv => Some srv
        | Raise _ => None
        end],
     match _server_class self (hostname parsed) p (_timeout self) with
     | Return srv => Return (Some srv, redirect_uri)
     | Raise (socket_error _) =>
         Raise (CredentialUnavailableError
                  ("Couldn't start an HTTP server on " +:+ redirect_uri))
     | Raise e => Raise e
     end).
Proof.
  intros Hport. unfold bind_explicit. rewrite Hport, new_server_run.
  destruct (_server_class self (hostname parsed) p (_timeout self)) as [srv | e];
    [reflexivity |].
  destruct e; reflexivity.
Qed.

Lemma start_server_binds :
  Forall (fun ev => is_bind ev = true) (trace (start_server self)).
Proof.
  unfold start_server. destruct (_parsed_url self) as [parsed |].
  - unfold bind_explicit. destruct (port parsed) as [p | e].
    + rewrite new_server_run.
      destruct (_server_class self (hostname parsed) p (_timeout self)) as [srv | e];
        [repeat constructor |].
      destruct e; repeat constructor.
    + destruct e; constructor.
  - apply scan_ports_binds.
Qed.

(** A listener that was started is the last entry of the log of
    [start_server]; every attempt before it was refused, and the redirect
    URI names the host and port it is bound to. *)
Lemma scan_ports_bound (ports : list Z) (server : Server) (redirect_uri : string) :
  outcome (scan_ports self ports) = Return (Some server, redirect_uri) ->
  exists failed p,
    trace (scan_ports self ports)
    = map (refused self) failed
        ++ [Bind (PyStr "localhost") (PyInt p) (_timeout self) (Some server)]
    /\ redirect_uri = "http://localhost:" +:+ str_of_Z p.
Proof.
  induction ports as [| p rest IH]; [discriminate |].
  cbn [scan_ports]. rewrite new_server_run.
  destruct (_server_class self (PyStr "localhost") (PyInt p) (_timeout self))
    as [srv | e]; cbn [bind try_except ret app trace outcome fst snd].
  - intros [= <- <-]. exists [], p. split; reflexivity.
  - destruct e; cbn [on_socket_error]; try discriminate.
    destruct (scan_ports self rest) as [t r]. cbn [trace outcome fst snd] in *.
    intros Hr. destruct (IH Hr) as (failed & q & -> & ->).
    exists (p :: failed), q. split; reflexivity.
Qed.

Lemma start_server_bound (server : Server) (redirect_uri : string) :
  outcome (start_server self) = Return (Some server, redirect_uri) ->
  exists failed host prt,
    trace (start_server self)
    = map (refused self) failed ++ [Bind host prt (_timeout self) (Some server)]
    /\ redirect_uri = "http://" +:+ format_py host +:+ ":" +:+ format_py prt.
Proof.
  unfold start_server. destruct (_parsed_url self) as [parsed |].
  - destruct (port parsed) as [p | e] eqn:Hport.
    + rewrite (bind_explicit_run parsed p Hport). cbn [outcome trace fst snd].
      destruct (_server_class self (hostname parsed) p (_timeout self)) as [srv | e].
      * intros [= <- <-]. exists [], (hostname parsed), p. split; reflexivity.
      * destruct e; discriminate.
    + unfold bind_explicit. rewrite Hport. destruct e; discriminate.
  - intros Hr. destruct (scan_ports_bound _ _ _ Hr) as (failed & p & -> & ->).
    exists failed, (PyStr "localhost"), (PyInt p). split; reflexivity.
Qed.

End Listener.

(** [range] unfolds port by port, and splits at any port inside it. *)
Lemma range_cons (lo : Z) (n : nat) : range lo (S n) = lo :: range (lo + 1) n.
Proof.
  unfold range. cbn [seq map]. f_equal; [lia |].
  rewrite <- seq_shift, map_map. apply map_ext. intros i. lia.
Qed.

Lemma range_split (lo : Z) (k n : nat) :
  range lo (k + S n) = range lo k ++ (lo + Z.of_nat k) :: range (lo + Z.of_nat k + 1) n.
Proof.
  revert lo. induction k as [| k IH]; intros lo.
  - change (range lo 0) with (@nil Z). cbn [Nat.add app].
    rewrite range_cons. replace (lo + Z.of_nat 0) with lo by lia. reflexivity.
  - cbn [Nat.add]. rewrite !range_cons, IH. cbn [app].
    replace (lo + 1 + Z.of_nat k) with (lo + Z.of_nat (S k)) by lia.
    reflexivity.
Qed.

Lemma in_range (lo : Z) (n : nat) (p : Z) :
  In p (range lo n) <-> lo <= p < lo + Z.of_nat n.
Proof.
  unfold range. rewrite in_map_iff. split.
  - intros [i [<- Hi]]. apply in_seq in Hi. lia.
  - intros Hp. exists (Z.to_nat (p - lo)). split; [lia |].
    apply in_seq. lia.
Qed.

(** *** The exit paths of [_request_token] *)

Lemma request_token_run (w : World) (self : InteractiveBrowserCredential)
  (scopes : list string) (claims : option string) :
  _request_token w self scopes claims
  = match outcome (start_server self) with
    | Raise e => (trace (start_server self), Raise e)
    | Return (None, _) =>
        (trace (start_server self),
         Raise (CredentialUnavailableError
                  "Couldn't start an HTTP server on localhost"))
    | Return (Some server, redirect_uri) =>
        (trace (start_server self)
           ++ trace (authenticate w self scopes claims server redirect_uri),
         outcome (authenticate w self scopes claims server redirect_uri))
    end.
Proof.
  unfold _request_token.
  destruct (start_server self) as [t [[[server |] redirect_uri] | e]];
    cbn [bind fst snd trace outcome raise].
  - destruct (authenticate w self scopes claims server redirect_uri); reflexivity.
  - rewrite app_nil_r. reflexivity.
  - reflexivity.
Qed.

(** An event that is not a bind attempt was logged after a successful
    bind, by [authenticate]. *)
Lemma request_token_reaches (w : World) (self : InteractiveBrowserCredential)
  (scopes : list string) (claims : option string) (ev : event) :
  In ev (trace (_request_token w self scopes claims)) ->
  is_bind ev = false ->
  exists server redirect_uri,
    outcome (start_server self) = Return (Some server, redirect_uri)
    /\ In ev (trace (authenticate w self scopes claims server redirect_uri))
    /\ _request_token w self scopes claims
       = (trace (start_server self)
            ++ trace (authenticate w self scopes claims server redirect_uri),
          outcome (authenticate w self scopes claims server redirect_uri)).
Proof.
  intros Hin Hev. rewrite request_token_run in *.
  assert (Hstart : ~ In ev (trace (start_server self))).
  { intros Hbad. pose proof (start_server_binds self) as Hall.
    rewrite List.Forall_forall in Hall. apply Hall in Hbad. congruence. }
  destruct (outcome (start_server self)) as [[[server |] redirect_uri] | e];
    cbn [trace fst] in Hin; try contradiction.
  exists server, redirect_uri. split; [reflexivity |]. split; [| reflexivity].
  apply in_app_or in Hin. destruct Hin; [contradiction | assumption].
Qed.

(** What a path that waited for the redirect did with the answer. *)
Lemma waited_path (w : World) (self : InteractiveBrowserCredential)
  (scopes : list string) (claims : option string)
  (server : Server) (redirect_uri : string)
  (t : list event) (r : result (gmap string pyval)) (srv : Server) :
  authenticate_path w self scopes claims server redirect_uri t r ->
  In (WaitForRedirect srv) t ->
  srv = server
  /\ In (Release server) t
  /\ In (initiate_event self scopes claims redirect_uri) t
  /\ exists flow,
      initiated w self scopes claims redirect_uri = Return flow
      /\ if truthy_response (inbound_redirect w server)
         then r = acquire_token_by_auth_code_flow w flow
                    (inbound_redirect w server) scopes claims
              /\ In (AcquireTokenByAuthCodeFlow flow
                       (inbound_redirect w server) scopes claims) t
         else r = Raise (timeout_error w self).
Proof.
  assert (Hlaunch : forall url,
             ~ In (WaitForRedirect srv) (trace (_open_browser w url))).
  { intros url Hbad. pose proof (open_browser_launch w url) as Hall.
    rewrite List.Forall_forall in Hall. apply Hall in Hbad. discriminate. }
  assert (Hwait : In (WaitForRedirect srv) (trace (wait_for_redirect w server))
                  -> srv = server).
  { rewrite wait_for_redirect_run. cbn [trace fst].
    destruct (inbound_redirect w server); cbn [In];
      intuition (try discriminate; congruence). }
  assert (Hrel : In (Release server) (trace (wait_for_redirect w server))).
  { rewrite wait_for_redirect_run. cbn [trace fst].
    destruct (inbound_redirect w server); cbn [In]; auto. }
  destruct 1 as [e Happ | e Happ Hflow | flow Happ Hflow Hauth
                | flow auth_uri Happ Hflow Hauth Hopen
                | flow auth_uri response Happ Hflow Hauth Hopen Hresp Hfalsy
                | flow auth_uri response Happ Hflow Hauth Hopen Hresp Htruthy];
    intros Hin; cbn [In] in Hin;
    try (exfalso; unfold initiate_event in Hin;
         intuition (try discriminate; eapply Hlaunch; eassumption)).
  - assert (srv = server) as ->.
    { unfold initiate_event in Hin.
      destruct Hin as [Hin | [Hin | Hin]]; try discriminate.
      apply in_app_or in Hin. destruct Hin as [Hin | Hin];
        [exfalso; eapply Hlaunch; eassumption | auto]. }
    split; [reflexivity |]. split.
    { right. right. apply in_or_app. right. exact Hrel. }
    split; [right; left; reflexivity |].
    exists flow. split; [exact Hflow |].
    rewrite wait_for_redirect_run in Hresp. cbn [outcome snd] in Hresp.
    injection Hresp as <-. rewrite Hfalsy. reflexivity.
  - assert (srv = server) as ->.
    { unfold initiate_event in Hin.
      destruct Hin as [Hin | [Hin | Hin]]; try discriminate.
      apply in_app_or in Hin. destruct Hin as [Hin | Hin];
        [exfalso; eapply Hlaunch; eassumption |].
      apply in_app_or in Hin. destruct Hin as [Hin | Hin]; [auto |].
      cbn [In] in Hin. intuition discriminate. }
    split; [reflexivity |]. split.
    { right. right. apply in_or_app. right. apply in_or_app. left. exact Hrel. }
    split; [right; left; reflexivity |].
    exists flow. split; [exact Hflow |].
    rewrite wait_for_redirect_run in Hresp. cbn [outcome snd] in Hresp.
    injection Hresp as <-. rewrite Htruthy. split; [reflexivity |].
    right. right. apply in_or_app. right. apply in_or_app. right. left.
    reflexivity.
Qed.

(** [s.lower()] goes through concatenation and leaves a number as it is. *)
Lemma lower_append (a b : string) : lower (a +:+ b) = lower a +:+ lower b.
Proof.
  induction a as [| c a IH]; simpl; [| rewrite IH]; reflexivity.
Qed.

Lemma lower_uint (d : Decimal.uint) :
  lower (NilEmpty.string_of_uint d) = NilEmpty.string_of_uint d.
Proof. induction d; cbn; try rewrite IHd; reflexivity. Qed.

Lemma lower_str_of_Z (z : Z) : lower (str_of_Z z) = str_of_Z z.
Proof.
  unfold str_of_Z, NilZero.string_of_int, NilZero.string_of_uint.
  destruct (Z.to_int z) as [d | d]; cbn [lower].
  - destruct d; try reflexivity; apply (lower_uint (_ d)).
  - replace (lower_ascii "-") with "-"%char by reflexivity. f_equal.
    destruct d; try reflexivity; apply (lower_uint (_ d)).
Qed.

(** *** Properties of the browser flow *)

(** C8. [_open_browser] calls the fallback exactly when the default
    browser's [open] reports failure, the system is Linux and the kernel
    release contains the vendor marker. The fallback is one call of the
    Windows shell, the command [powershell.exe -NoProfile -Command] with
    [Start-Process] on the URL between double quotes (character 34), with a
    timeout of 5 seconds; its answer is success exactly when the call
    returns exit code zero, an exception of the call is swallowed and
    counts as failure; where the fallback is not due, the answer is that of
    the default browser and no fallback call is made. *)
Theorem open_browser_fallback (w : World) (url : pyval) :
  let command :=
    ["powershell.exe"; "-NoProfile"; "-Command";
     "Start-Process "
     +:+ String "034"%char (format_py url +:+ String "034"%char "")] in
  ((exists args timeout,
       In (SubprocessCall args timeout) (trace (_open_browser w url)))
   <-> webbrowser_open w url = false
       /\ os_is_linux w = true
       /\ release_has_marker w = true)
  /\ fallback_calls (trace (_open_browser w url))
     = (if fallback_due w url then [(command, 5)] else [])
  /\ outcome (_open_browser w url)
     = Return (if fallback_due w url
               then exit_code_zero (subprocess_call w command 5)
               else webbrowser_open w url).
Proof.
  intros command. change command with (powershell_args url). clear command.
  rewrite open_browser_run. unfold fallback_due. cbn [trace outcome fst snd].
  destruct (webbrowser_open w url), (os_is_linux w), (release_has_marker w);
    cbn [andb negb fallback_calls omap fallback_of In];
    (split; [split | split; reflexivity]);
    try (intros (args & timeout & H); exfalso;
         intuition (discriminate || congruence));
    try (intros (H1 & H2 & H3); discriminate).
  - intros _. repeat split.
  - intros _. exists (powershell_args url), 5%Z. right. right. left. reflexivity.
Qed.

(** Under the Windows subsystem for Linux with no Linux browser, the
    fallback decides; on plain Linux it is not tried. *)
Lemma open_browser_fallback_witness :
  (fallback_calls (trace (_open_browser (wsl_host (Return 0)) login_page))
   = [(["powershell.exe"; "-NoProfile"; "-Command";
        "Start-Process "
        +:+ String "034"%char
              ("https://login.microsoftonline.com/authorize"
               +:+ String "034"%char "")], 5)]
   /\ outcome (_open_browser (wsl_host (Return 0)) login_page) = Return true)
  /\ outcome (_open_browser (wsl_host (Return 1)) login_page) = Return false
  /\ outcome (_open_browser
                (wsl_host (Raise (OtherError "TimeoutExpired" "5 seconds")))
                login_page) = Return false
  /\ (fallback_calls (trace (_open_browser headless_host login_page)) = []
      /\ outcome (_open_browser headless_host login_page) = Return false).
Proof.
  split; [split | split; [| split; [| split]]].
  - exact (proj1 (proj2 (open_browser_fallback (wsl_host (Return 0)) login_page))).
  - exact (proj2 (proj2 (open_browser_fallback (wsl_host (Return 0)) login_page))).
  - exact (proj2 (proj2 (open_browser_fallback (wsl_host (Return 1)) login_page))).
  - exact (proj2 (proj2 (open_browser_fallback
                           (wsl_host (Raise (OtherError "TimeoutExpired"
                                               "5 seconds")))
                           login_page))).
  - exact (proj1 (proj2 (open_browser_fallback headless_host login_page))).
  - exact (proj2 (proj2 (open_browser_fallback headless_host login_page))).
Defined.

(** C1. When the flow reached [wait_for_redirect] and that returned
    nothing, [_request_token] raises [CredentialUnavailableError] if
    [within_dac] is set and [ClientAuthenticationError] if it is not, in both
    cases with the message "Timed out after waiting N seconds for the user
    to authenticate", N the credential's timeout; the specification quotes
    the message in lower case. *)
Theorem timeout_classification (w : World) (self : InteractiveBrowserCredential)
  (scopes : list string) (claims : option string) (srv : Server) :
  In (WaitForRedirect srv) (trace (_request_token w self scopes claims)) ->
  outcome (wait_for_redirect w srv) = Return None ->
  exists message,
    outcome (_request_token w self scopes claims)
    = Raise (if within_dac_get w
             then CredentialUnavailableError message
             else ClientAuthenticationError message)
    /\ message = "Timed out after waiting " +:+ str_of_Z (_timeout self)
                 +:+ " seconds for the user to authenticate"
    /\ lower message = "timed out after waiting " +:+ str_of_Z (_timeout self)
                       +:+ " seconds for the user to authenticate".
Proof.
  intros Hin Hnone.
  destruct (request_token_reaches _ _ _ _ _ Hin eq_refl)
    as (server & redirect_uri & _ & Hauth & Hrun).
  destruct (waited_path _ _ _ _ _ _ _ _ _ (authenticate_path_of _ _ _ _ _ _) Hauth)
    as (-> & _ & _ & flow & _ & Hout).
  rewrite wait_for_redirect_run in Hnone. cbn [outcome snd] in Hnone.
  injection Hnone as Hnone. rewrite Hnone in Hout. cbn [truthy_response] in Hout.
  exists (timed_out self). split; [| split].
  - rewrite Hrun. cbn [outcome snd]. rewrite Hout. unfold timeout_error.
    destruct (within_dac_get w); reflexivity.
  - reflexivity.
  - unfold timed_out. rewrite !lower_append, lower_str_of_Z. reflexivity.
Qed.

Lemma timeout_classification_witness :
  (exists message,
      outcome (_request_token (silent_host true)
                 (Sample.credential (silent_host true) Sample.no_kwargs)
                 ["scope"] None)
      = Raise (CredentialUnavailableError message)
      /\ message = "Timed out after waiting 300 seconds for the user to authenticate"
      /\ lower message = "timed out after waiting 300 seconds for the user to authenticate")
  /\ (exists message,
      outcome (_request_token (silent_host false)
                 (Sample.credential (silent_host false) Sample.no_kwargs)
                 ["scope"] None)
      = Raise (ClientAuthenticationError message)
      /\ message = "Timed out after waiting 300 seconds for the user to authenticate"
      /\ lower message = "timed out after waiting 300 seconds for the user to authenticate").
Proof.
  split.
  - apply (timeout_classification (silent_host true)
             (Sample.credential (silent_host true) Sample.no_kwargs)
             ["scope"] None first_listener).
    + vm_compute. do 4 right. left. reflexivity.
    + reflexivity.
  - apply (timeout_classification (silent_host false)
             (Sample.credential (silent_host false) Sample.no_kwargs)
             ["scope"] None first_listener).
    + vm_compute. do 4 right. left. reflexivity.
    + reflexivity.
Defined.





(** *** Order of the steps *)

Section Order.
Variables (w : World) (self : InteractiveBrowserCredential).
Variables (scopes : list string) (claims : option string).
Variables (server : Server) (redirect_uri : string).

Lemma wait_for_redirect_wait :
  Forall (fun ev => is_wait ev = true) (trace (wait_for_redirect w server)).
Proof.
  rewrite wait_for_redirect_run. cbn [trace fst].
  destruct (inbound_redirect w server); repeat constructor.
Qed.

Lemma in_launch (ev : event) (url : pyval) :
  In ev (trace (_open_browser w url)) -> is_launch ev = true.
Proof.
  pose proof (open_browser_launch w url) as Hall.
  rewrite List.Forall_forall in Hall. apply Hall.
Qed.

Lemma in_wait (ev : event) :
  In ev (trace (wait_for_redirect w server)) -> is_wait ev = true.
Proof.
  pose proof wait_for_redirect_wait as Hall.
  rewrite List.Forall_forall in Hall. apply Hall.
Qed.

Lemma launch_starts (url : pyval) :
  exists rest,
    trace (_open_browser w url) = WebbrowserOpen url :: rest
    /\ forall url', ~ In (WebbrowserOpen url') rest.
Proof.
  rewrite open_browser_run. cbn [trace fst]. eexists. split; [reflexivity |].
  intros url'. destruct (webbrowser_open w url); cbn [In]; [tauto |].
  destruct (release_has_marker w && os_is_linux w); cbn [In];
    intuition discriminate.
Qed.

(** A path that asked MSAL for a flow did so right after [_get_app], with
    the redirect URI of the listener; a flow without [auth_uri] ends it. *)
Lemma initiate_in_path (t : list event) (r : result (gmap string pyval))
  (scopes' : list string) (uri prompt : string) (claims' hint : option string) :
  authenticate_path w self scopes claims server redirect_uri t r ->
  In (InitiateAuthCodeFlow scopes' uri prompt claims' hint) t ->
  uri = redirect_uri
  /\ exists rest,
      t = GetApp :: initiate_event self scopes claims redirect_uri :: rest
      /\ forall flow,
          initiated w self scopes claims redirect_uri = Return flow ->
          flow !! "auth_uri" = None ->
          r = Raise (CredentialUnavailableError
                       "Failed to begin authentication flow")
          /\ rest = [].
Proof.
  destruct 1 as [e Happ | e Happ Hflow | flow Happ Hflow Hauth
                | flow auth_uri Happ Hflow Hauth Hopen
                | flow auth_uri response Happ Hflow Hauth Hopen Hresp Hfalsy
                | flow auth_uri response Happ Hflow Hauth Hopen Hresp Htruthy];
    intros Hin; cbn [In] in Hin.
  1: intuition discriminate.
  all: assert (Huri : uri = redirect_uri);
    [ destruct Hin as [Hin | [Hin | Hin]]; [discriminate | | exfalso];
      [ unfold initiate_event in Hin; congruence | ];
      repeat (apply in_app_or in Hin; destruct Hin as [Hin | Hin]);
      try (apply in_launch in Hin; discriminate);
      try (apply in_wait in Hin; discriminate);
      try contradiction;
      cbn [In] in Hin; intuition discriminate
    | split; [exact Huri |]; eexists; split; [reflexivity |];
      intros flow' Hflow' Hnone; try congruence ].
  split; reflexivity.
Qed.

(** A path that opened the browser did so right after the flow was
    initiated, on the flow's [auth_uri]; a browser that does not open ends
    the path. *)
Lemma browser_in_path (t : list event) (r : result (gmap string pyval))
  (url : pyval) :
  authenticate_path w self scopes claims server redirect_uri t r ->
  In (WebbrowserOpen url) t ->
  exists flow rest,
    initiated w self scopes claims redirect_uri = Return flow
    /\ flow !! "auth_uri" = Some url
    /\ t = GetApp :: initiate_event self scopes claims redirect_uri
             :: WebbrowserOpen url :: rest
    /\ (outcome (_open_browser w url) = Return false ->
        r = Raise (CredentialUnavailableError "Failed to open a browser")
        /\ forall srv, ~ In (WaitForRedirect srv) t).
Proof.
  destruct 1 as [e Happ | e Happ Hflow | flow Happ Hflow Hauth
                | flow auth_uri Happ Hflow Hauth Hopen
                | flow auth_uri response Happ Hflow Hauth Hopen Hresp Hfalsy
                | flow auth_uri response Happ Hflow Hauth Hopen Hresp Htruthy];
    intros Hin; cbn [In] in Hin;
    try (exfalso; unfold initiate_event in Hin; intuition discriminate).
  all: destruct (launch_starts auth_uri) as (rest & Hrest & Hnone);
    assert (Hurl : url = auth_uri);
    [ destruct Hin as [Hin | [Hin | Hin]];
      [discriminate | unfold initiate_event in Hin; discriminate |];
      repeat (apply in_app_or in Hin; destruct Hin as [Hin | Hin]);
      try (apply in_wait in Hin; discriminate);
      try (cbn [In] in Hin; intuition discriminate);
      rewrite Hrest in Hin; destruct Hin as [Hin | Hin];
      [congruence | exfalso; eapply Hnone; eassumption]
    | subst url; exists flow; rewrite Hrest; cbn [app];
      eexists; repeat split; try eassumption; try congruence ].
  intros srv Hbad. cbn [In] in Hbad.
  destruct Hbad as [Hbad | [Hbad | [Hbad | Hbad]]];
    try discriminate; try (unfold initiate_event in Hbad; discriminate).
  assert (Hl : In (WaitForRedirect srv) (trace (_open_browser w auth_uri)))
    by (rewrite Hrest; right; exact Hbad).
  apply in_launch in Hl. discriminate.
Qed.

End Order.

(** C9. In [_request_token]: a flow that [initiate_auth_code_flow]
    returned without [auth_uri] makes it raise [CredentialUnavailableError]
    "Failed to begin authentication flow", before any browser is opened; a
    browser that does not open makes it raise [CredentialUnavailableError]
    "Failed to open a browser", before any wait; and the log shows the
    order: bind attempts ending in the successful one, then [_get_app] and
    [initiate_auth_code_flow] with the redirect URI of the bound listener,
    then the browser on the flow's [auth_uri]. The specification quotes the
    two messages in lower case. *)
Theorem flow_start_failures (w : World) (self : InteractiveBrowserCredential)
  (scopes : list string) (claims : option string) :
  (forall redirect_uri flow,
      In (InitiateAuthCodeFlow scopes redirect_uri "select_account" claims
            (_login_hint self))
         (trace (_request_token w self scopes claims)) ->
      initiate_auth_code_flow w scopes redirect_uri "select_account" claims
        (_login_hint self) = Return flow ->
      flow !! "auth_uri" = None ->
      outcome (_request_token w self scopes claims)
      = Raise (CredentialUnavailableError "Failed to begin authentication flow")
      /\ forall url,
          ~ In (WebbrowserOpen url) (trace (_request_token w self scopes claims)))
  /\ (forall url,
      In (WebbrowserOpen url) (trace (_request_token w self scopes claims)) ->
      outcome (_open_browser w url) = Return false ->
      outcome (_request_token w self scopes claims)
      = Raise (CredentialUnavailableError "Failed to open a browser")
      /\ forall srv,
          ~ In (WaitForRedirect srv) (trace (_request_token w self scopes claims)))
  /\ (forall scopes' redirect_uri prompt claims' hint,
      In (InitiateAuthCodeFlow scopes' redirect_uri prompt claims' hint)
         (trace (_request_token w self scopes claims)) ->
      exists failed host prt server rest,
        trace (_request_token w self scopes claims)
        = map (refused self) failed
            ++ Bind host prt (_timeout self) (Some server)
            :: GetApp
            :: InitiateAuthCodeFlow scopes redirect_uri "select_account" claims
                 (_login_hint self)
            :: rest
        /\ redirect_uri = "http://" +:+ format_py host +:+ ":" +:+ format_py prt)
  /\ (forall url,
      In (WebbrowserOpen url) (trace (_request_token w self scopes claims)) ->
      exists failed host prt server redirect_uri flow rest,
        trace (_request_token w self scopes claims)
        = map (refused self) failed
            ++ Bind host prt (_timeout self) (Some server)
            :: GetApp
            :: InitiateAuthCodeFlow scopes redirect_uri "select_account" claims
                 (_login_hint self)
            :: WebbrowserOpen url
            :: rest
        /\ initiate_auth_code_flow w scopes redirect_uri "select_account" claims
             (_login_hint self) = Return flow
        /\ flow !! "auth_uri" = Some url)
  /\ lower "Failed to begin authentication flow"
     = "failed to begin authentication flow"
  /\ lower "Failed to open a browser" = "failed to open a browser".
Proof.
  assert (Hshape : forall ev,
             In ev (trace (_request_token w self scopes claims)) ->
             is_bind ev = false ->
             exists failed host prt server redirect_uri,
               In ev (trace (authenticate w self scopes claims server redirect_uri))
               /\ _request_token w self scopes claims
                  = (map (refused self) failed
                       ++ Bind host prt (_timeout self) (Some server)
                       :: trace (authenticate w self scopes claims server
                                   redirect_uri),
                     outcome (authenticate w self scopes claims server
                                redirect_uri))
               /\ redirect_uri
                  = "http://" +:+ format_py host +:+ ":" +:+ format_py prt).
  { intros ev Hin Hev.
    destruct (request_token_reaches _ _ _ _ _ Hin Hev)
      as (server & redirect_uri & Hstart & Hauth & Hrun).
    destruct (start_server_bound _ _ _ Hstart)
      as (failed & host & prt & Htrace & Huri).
    exists failed, host, prt, server, redirect_uri.
    split; [exact Hauth |]. split; [| exact Huri].
    rewrite Hrun, Htrace, <- app_assoc. reflexivity. }
  split; [| split; [| split; [| split; [| split; reflexivity]]]].
  - intros redirect_uri flow Hin Hflow Hnone.
    destruct (Hshape _ Hin eq_refl)
      as (failed & host & prt & server & uri & Hauth & Hrun & _).
    destruct (initiate_in_path _ _ _ _ _ _ _ _ _ _ _ _ _
                (authenticate_path_of _ _ _ _ _ _) Hauth)
      as (-> & rest & Ht & Hend).
    destruct (Hend flow Hflow Hnone) as [Hout ->].
    rewrite Hrun. cbn [trace outcome fst snd]. split; [exact Hout |].
    intros url Hbad. apply in_app_or in Hbad. rewrite Ht in Hbad.
    destruct Hbad as [Hbad | Hbad].
    + apply in_map_iff in Hbad. destruct Hbad as (q & Hq & _). discriminate.
    + cbn [In] in Hbad. unfold initiate_event in Hbad. intuition discriminate.
  - intros url Hin Hclosed.
    destruct (Hshape _ Hin eq_refl)
      as (failed & host & prt & server & uri & Hauth & Hrun & _).
    destruct (browser_in_path _ _ _ _ _ _ _ _ _
                (authenticate_path_of _ _ _ _ _ _) Hauth)
      as (flow & rest & _ & _ & _ & Hend).
    destruct (Hend Hclosed) as [Hout Hnowait].
    rewrite Hrun. cbn [trace outcome fst snd]. split; [exact Hout |].
    intros srv Hbad. apply in_app_or in Hbad. destruct Hbad as [Hbad | Hbad].
    + apply in_map_iff in Hbad. destruct Hbad as (q & Hq & _). discriminate.
    + destruct Hbad as [Hbad | Hbad]; [discriminate |].
      eapply Hnowait; eassumption.
  - intros scopes' redirect_uri prompt claims' hint Hin.
    destruct (Hshape _ Hin eq_refl)
      as (failed & host & prt & server & uri & Hauth & Hrun & Huri).
    destruct (initiate_in_path _ _ _ _ _ _ _ _ _ _ _ _ _
                (authenticate_path_of _ _ _ _ _ _) Hauth)
      as (-> & rest & Ht & _).
    exists failed, host, prt, server, rest. split; [| exact Huri].
    rewrite Hrun, Ht. reflexivity.
  - intros url Hin.
    destruct (Hshape _ Hin eq_refl)
      as (failed & host & prt & server & uri & Hauth & Hrun & _).
    destruct (browser_in_path _ _ _ _ _ _ _ _ _
                (authenticate_path_of _ _ _ _ _ _) Hauth)
      as (flow & rest & Hflow & Hurl & Ht & _).
    exists failed, host, prt, server, uri, flow, rest.
    split; [| split; [exact Hflow | exact Hurl]].
    rewrite Hrun, Ht. reflexivity.
Qed.

(** Nothing after the successful bind binds again. *)
Lemma omap_authenticate (w : World) (self : InteractiveBrowserCredential)
  (scopes : list string) (claims : option string)
  (server : Server) (redirect_uri : string) :
  omap bind_of (trace (authenticate w self scopes claims server redirect_uri))
  = [].
Proof.
  assert (Hnone : forall t, Forall (fun ev => is_bind ev = false) t ->
                            omap bind_of t = []).
  { induction 1 as [| ev t Hev _ IH]; [reflexivity |].
    destruct ev; try discriminate; exact IH. }
  assert (Hl : forall url, Forall (fun ev => is_bind ev = false)
                             (trace (_open_browser w url))).
  { intros url. apply List.Forall_forall. intros ev Hin.
    apply in_launch in Hin. destruct ev; try discriminate; reflexivity. }
  assert (Hw : Forall (fun ev => is_bind ev = false)
                 (trace (wait_for_redirect w server))).
  { apply List.Forall_forall. intros ev Hin.
    apply in_wait in Hin. destruct ev; try discriminate; reflexivity. }
  apply Hnone.
  destruct (authenticate_path_of w self scopes claims server redirect_uri);
    repeat first [ apply Hl | apply Hw
                 | apply List.Forall_app; split
                 | constructor; [reflexivity |]
                 | constructor ].
Qed.

Lemma binds_refused (self : InteractiveBrowserCredential) (ports : list Z) :
  omap bind_of (map (refused self) ports)
  = map (fun q => (PyStr "localhost", PyInt q, None)) ports.
Proof.
  induction ports as [| q l IH]; [reflexivity |].
  cbn [map omap refused bind_of]. rewrite <- IH. reflexivity.
Qed.

Lemma flow_start_failures_witness :
  outcome (_request_token bare_flow_host
             (Sample.credential bare_flow_host Sample.no_kwargs) ["scope"] None)
  = Raise (CredentialUnavailableError "Failed to begin authentication flow")
  /\ outcome (_request_token headless_host
               (Sample.credential headless_host Sample.no_kwargs) ["scope"] None)
     = Raise (CredentialUnavailableError "Failed to open a browser").
Proof.
  split.
  - destruct (flow_start_failures bare_flow_host
                (Sample.credential bare_flow_host Sample.no_kwargs)
                ["scope"] None) as [Hbegin _].
    apply (Hbegin "http://localhost:8400" {[ "error" := PyStr "invalid_client" ]}).
    + vm_compute. do 2 right. left. reflexivity.
    + reflexivity.
    + vm_compute. reflexivity.
  - destruct (flow_start_failures headless_host
                (Sample.credential headless_host Sample.no_kwargs)
                ["scope"] None) as (_ & Hopen & _).
    apply (Hopen (PyStr "https://login.microsoftonline.com/authorize")).
    + vm_compute. do 3 right. left. reflexivity.
    + reflexivity.
Defined.

(** C2. With no redirect URI configured, [_request_token] tries the ports
    8400 to 8999 of [localhost] in increasing order and keeps the first
    that binds: when every port below [p] raises [socket.error] and [p]
    binds, the log is the refused attempts on 8400, ..., p - 1 followed by
    the bind of [p], no further bind is attempted and the redirect URI is
    the one of port [p]; when every port of the range raises
    [socket.error], the log is the 600 refused attempts and the call raises
    [CredentialUnavailableError]. *)
Theorem port_scan (w : World) (self : InteractiveBrowserCredential)
  (scopes : list string) (claims : option string) :
  _parsed_url self = None ->
  (forall p srv,
      8400 <= p <= 8999 ->
      (forall q, 8400 <= q < p -> taken self q) ->
      _server_class self (PyStr "localhost") (PyInt p) (_timeout self)
      = Return srv ->
      start_server self
      = (map (refused self) (range 8400 (Z.to_nat (p - 8400)))
           ++ [Bind (PyStr "localhost") (PyInt p) (_timeout self) (Some srv)],
         Return (Some srv, "http://localhost:" +:+ str_of_Z p))
      /\ binds (trace (_request_token w self scopes claims))
         = map (fun q => (PyStr "localhost", PyInt q, None))
             (range 8400 (Z.to_nat (p - 8400)))
           ++ [(PyStr "localhost", PyInt p, Some srv)])
  /\ ((forall q, 8400 <= q <= 8999 -> taken self q) ->
      _request_token w self scopes claims
      = (map (refused self) (range 8400 600),
         Raise (CredentialUnavailableError
                  "Couldn't start an HTTP server on localhost"))).
Proof.
  intros Hdefault. split.
  - intros p srv Hp Hbelow Hbind.
    assert (Hstart :
              start_server self
              = (map (refused self) (range 8400 (Z.to_nat (p - 8400)))
                   ++ [Bind (PyStr "localhost") (PyInt p) (_timeout self)
                         (Some srv)],
                 Return (Some srv, "http://localhost:" +:+ str_of_Z p))).
    { unfold start_server. rewrite Hdefault.
      replace 600%nat
        with (Z.to_nat (p - 8400) + S (Z.to_nat (8999 - p)))%nat by lia.
      rewrite range_split.
      replace (8400 + Z.of_nat (Z.to_nat (p - 8400))) with p by lia.
      apply scan_ports_first; [| exact Hbind].
      apply List.Forall_forall. intros q Hq. apply in_range in Hq.
      apply Hbelow. lia. }
    split; [exact Hstart |].
    rewrite request_token_run, Hstart. cbn [outcome trace fst snd].
    unfold binds. rewrite !omap_app, omap_authenticate. cbn [omap bind_of].
    rewrite app_nil_r, binds_refused. reflexivity.
  - intros Hall.
    assert (Hstart : start_server self
                     = (map (refused self) (range 8400 600), Return (None, ""))).
    { unfold start_server. rewrite Hdefault. apply scan_ports_exhausted.
      apply List.Forall_forall. intros q Hq. apply in_range in Hq.
      apply Hall. lia. }
    rewrite request_token_run, Hstart. reflexivity.
Qed.

Lemma port_scan_witness :
  binds (trace (_request_token crowded_host
                  (Sample.credential crowded_host Sample.no_kwargs)
                  ["scope"] None))
  = map (fun q => (PyStr "localhost", PyInt q, None))
      [8400; 8401; 8402; 8403; 8404; 8405]
    ++ [(PyStr "localhost", PyInt 8406,
         Some {| server_host := PyStr "localhost"; server_port := PyInt 8406;
                 server_timeout := 300 |})]
  /\ outcome (_request_token full_host
                (Sample.credential full_host Sample.no_kwargs) ["scope"] None)
     = Raise (CredentialUnavailableError
                "Couldn't start an HTTP server on localhost").
Proof.
  split.
  - destruct (port_scan crowded_host
                (Sample.credential crowded_host Sample.no_kwargs)
                ["scope"] None eq_refl) as [Hfirst _].
    destruct (Hfirst 8406
                {| server_host := PyStr "localhost"; server_port := PyInt 8406;
                   server_timeout := 300 |}) as [_ Hbinds].
    + lia.
    + intros q Hq. exists "Address already in use".
      cbv -[Z.ltb]. destruct (Z.ltb_spec q 8406); [reflexivity | lia].
    + reflexivity.
    + exact Hbinds.
  - destruct (port_scan full_host
                (Sample.credential full_host Sample.no_kwargs)
                ["scope"] None eq_refl) as [_ Hnone].
    rewrite Hnone; [reflexivity |].
    intros q Hq. exists "Address already in use". reflexivity.
Defined.

(** C6, as the code has it. With an explicit redirect target (a parsed URL
    whose [port] property returns), [_request_token] makes one bind attempt
    in all, on the parsed host and port, and never one on the scanned
    range; when that attempt raises [socket.error], nothing else is called
    and the call raises [CredentialUnavailableError] with the message
    "Couldn't start an HTTP server on http://HOST:PORT", the address rebuilt
    from the parsed host and port. *)
Theorem explicit_bind (w : World) (self : InteractiveBrowserCredential)
  (scopes : list string) (claims : option string)
  (parsed : ParseResult) (p : pyval) :
  _parsed_url self = Some parsed ->
  port parsed = Return p ->
  (exists bound,
      binds (trace (_request_token w self scopes claims))
      = [(hostname parsed, p, bound)])
  /\ (forall msg,
      _server_class self (hostname parsed) p (_timeout self)
      = Raise (socket_error msg) ->
      _request_token w self scopes claims
      = ([Bind (hostname parsed) p (_timeout self) None],
         Raise (CredentialUnavailableError
                  ("Couldn't start an HTTP server on "
                   +:+ "http://" +:+ format_py (hostname parsed)
                   +:+ ":" +:+ format_py p)))).
Proof.
  intros Hexplicit Hport.
  assert (Hstart := bind_explicit_run self parsed p Hport). cbv zeta in Hstart.
  rewrite request_token_run. unfold start_server. rewrite Hexplicit, Hstart.
  cbn [trace outcome fst snd]. split.
  - exists (match _server_class self (hostname parsed) p (_timeout self) with
            | Return srv => Some srv
            | Raise _ => None
            end).
    unfold binds.
    destruct (_server_class self (hostname parsed) p (_timeout self))
      as [srv | e].
    + cbn [trace fst app]. change (omap bind_of (?ev :: ?t))
        with (match bind_of ev with
              | Some b => b :: omap bind_of t
              | None => omap bind_of t
              end).
      cbn [bind_of]. rewrite omap_authenticate. reflexivity.
    + destruct e; reflexivity.
  - intros msg Hrefused. rewrite Hrefused. reflexivity.
Qed.

Lemma explicit_bind_witness :
  (exists bound,
      binds (trace (_request_token full_host explicit_credential ["scope"] None))
      = [(PyStr "localhost", PyInt 8400, bound)])
  /\ _request_token full_host explicit_credential ["scope"] None
     = ([Bind (PyStr "localhost") (PyInt 8400) 300 None],
        Raise (CredentialUnavailableError
                 "Couldn't start an HTTP server on http://localhost:8400")).
Proof.
  destruct (explicit_bind full_host explicit_credential ["scope"] None
              {| hostname := PyStr "localhost"; port := Return (PyInt 8400) |}
              (PyInt 8400) eq_refl eq_refl) as [Hone Hfail].
  split; [exact Hone | exact (Hfail "Address already in use" eq_refl)].
Defined.

(** C6, as stated, fails: with [redirect_uri="http://localhost:8400"] and
    the port taken, the message raised is not the stated one, whatever the
    case of its letters. *)
Lemma explicit_bind_message_differs :
  exists message,
    outcome (_request_token full_host explicit_credential ["scope"] None)
    = Raise (CredentialUnavailableError message)
    /\ lower message <> lower (stated_bind_message "http://localhost:8400").
Proof.
  exists "Couldn't start an HTTP server on http://localhost:8400".
  split; [reflexivity | discriminate].
Qed.

(** *** The listener's socket *)

Lemma pyval_eqb_refl (v : pyval) : pyval_eqb v v = true.
Proof.
  destruct v; cbn [pyval_eqb];
    [reflexivity | apply String.eqb_refl | apply Z.eqb_refl].
Qed.

Lemma server_eqb_refl (srv : Server) : server_eqb srv srv = true.
Proof.
  unfold server_eqb. rewrite !pyval_eqb_refl, Z.eqb_refl. reflexivity.
Qed.

Lemma still_bound_app (t t' : list event) (bound : list Server) :
  still_bound (t ++ t') bound = still_bound t' (still_bound t bound).
Proof.
  revert bound. induction t as [| ev t IH]; intros bound; [reflexivity |].
  destruct ev as [host prt timeout [srv |] | | | | | | | | | | | | | |];
    cbn [app still_bound]; apply IH.
Qed.

Lemma still_bound_keeps (t : list event) (bound : list Server) :
  Forall (fun ev => keeps_sockets ev = true) t -> still_bound t bound = bound.
Proof.
  induction 1 as [| ev t Hev _ IH]; [reflexivity |].
  destruct ev as [host prt timeout [srv |] | | | | | | | | | | | | | |];
    try discriminate; exact IH.
Qed.

Lemma served_none (t : list event) :
  Forall (fun ev => serve_of ev = None) t -> served t = [].
Proof.
  induction 1 as [| ev t Hev _ IH]; [reflexivity |].
  unfold served in *. destruct ev; try discriminate; exact IH.
Qed.

Section Socket.
Variables (w : World) (self : InteractiveBrowserCredential).
Variables (scopes : list string) (claims : option string).
Variables (server : Server) (redirect_uri : string).

Lemma launch_keeps (url : pyval) :
  Forall (fun ev => keeps_sockets ev = true /\ serve_of ev = None)
    (trace (_open_browser w url)).
Proof.
  apply List.Forall_forall. intros ev Hin. apply in_launch in Hin.
  destruct ev; try discriminate; split; reflexivity.
Qed.

Lemma wait_releases :
  still_bound (trace (wait_for_redirect w server)) [server] = []
  /\ (length (served (trace (wait_for_redirect w server))) <= 1)%nat.
Proof.
  rewrite wait_for_redirect_run. cbn [trace fst].
  destruct (inbound_redirect w server);
    (split; [cbn [still_bound List.filter]; rewrite server_eqb_refl; reflexivity
            | cbn; lia]).
Qed.

(** Along every path at most one request is serviced; a path that waited
    for the redirect ends with the listener's socket released. *)
Lemma path_sockets (t : list event) (r : result (gmap string pyval)) :
  authenticate_path w self scopes claims server redirect_uri t r ->
  (length (served t) <= 1)%nat
  /\ forall srv, In (WaitForRedirect srv) t -> still_bound t [server] = [].
Proof.
  assert (Hl : forall url,
             served (trace (_open_browser w url)) = []
             /\ forall bound,
                 still_bound (trace (_open_browser w url)) bound = bound).
  { intros url. pose proof (launch_keeps url) as Hall. split.
    - apply served_none. eapply List.Forall_impl; [| exact Hall]. intros ev [_ H]; exact H.
    - intros bound. apply still_bound_keeps.
      eapply List.Forall_impl; [| exact Hall]. intros ev [H _]; exact H. }
  destruct wait_releases as [Hrel Hserved].
  destruct 1 as [e Happ | e Happ Hflow | flow Happ Hflow Hauth
                | flow auth_uri Happ Hflow Hauth Hopen
                | flow auth_uri response Happ Hflow Hauth Hopen Hresp Hfalsy
                | flow auth_uri response Happ Hflow Hauth Hopen Hresp Htruthy];
    unfold served in *.
  1-3: split; [cbn; lia |]; intros srv Hin; cbn [In] in Hin;
    unfold initiate_event in Hin; intuition discriminate.
  - split.
    + change (length (omap serve_of (trace (_open_browser w auth_uri))) <= 1)%nat.
      destruct (Hl auth_uri) as [Hs _]. unfold served in Hs. rewrite Hs. cbn; lia.
    + intros srv Hin. cbn [In] in Hin. unfold initiate_event in Hin.
      destruct Hin as [Hin | [Hin | Hin]]; try discriminate.
      apply in_launch in Hin. discriminate.
  - split.
    + change (length (omap serve_of (trace (_open_browser w auth_uri)
                                     ++ trace (wait_for_redirect w server))) <= 1)%nat.
      rewrite omap_app. destruct (Hl auth_uri) as [Hs _]. unfold served in Hs.
      rewrite Hs. exact Hserved.
    + intros srv _. change (still_bound (trace (_open_browser w auth_uri)
                                     ++ trace (wait_for_redirect w server))
                          [server] = []).
      rewrite still_bound_app. destruct (Hl auth_uri) as [_ Hk].
      rewrite Hk. exact Hrel.
  - split.
    + change (length (omap serve_of
                        (trace (_open_browser w auth_uri)
                         ++ trace (wait_for_redirect w server)
                         ++ [AcquireTokenByAuthCodeFlow flow response scopes
                               claims])) <= 1)%nat.
      rewrite !omap_app. destruct (Hl auth_uri) as [Hs _]. unfold served in Hs.
      rewrite Hs. cbn [app omap serve_of]. rewrite app_nil_r. exact Hserved.
    + intros srv _. change (still_bound
                          (trace (_open_browser w auth_uri)
                           ++ trace (wait_for_redirect w server)
                           ++ [AcquireTokenByAuthCodeFlow flow response scopes
                                 claims])
                          [server] = []).
      rewrite !still_bound_app. destruct (Hl auth_uri) as [_ Hk].
      rewrite Hk, Hrel. reflexivity.
Qed.

End Socket.

Lemma binds_keep_nothing_served (self : InteractiveBrowserCredential) :
  served (trace (start_server self)) = [].
Proof.
  apply served_none. eapply List.Forall_impl; [| apply start_server_binds].
  intros ev Hev. destruct ev; try discriminate; reflexivity.
Qed.

Lemma still_bound_refused (self : InteractiveBrowserCredential)
  (failed : list Z) (bound : list Server) :
  still_bound (map (refused self) failed) bound = bound.
Proof.
  apply still_bound_keeps. apply List.Forall_forall. intros ev Hin.
  apply in_map_iff in Hin. destruct Hin as (q & <- & _). reflexivity.
Qed.

(** C5, as the code has it. In every call of [_request_token] the listener
    services at most one inbound request; and in every call that reached
    [wait_for_redirect], whether it then returned a token, timed out or
    failed in the exchange, no listener is left bound when the call ends:
    the release is the listener's own, inside [wait_for_redirect]. *)
Theorem listener_released (w : World) (self : InteractiveBrowserCredential)
  (scopes : list string) (claims : option string) :
  (length (served (trace (_request_token w self scopes claims))) <= 1)%nat
  /\ forall srv,
      In (WaitForRedirect srv) (trace (_request_token w self scopes claims)) ->
      In (Release srv) (trace (_request_token w self scopes claims))
      /\ still_bound (trace (_request_token w self scopes claims)) [] = [].
Proof.
  split.
  - rewrite request_token_run.
    pose proof (binds_keep_nothing_served self) as Hnone.
    destruct (outcome (start_server self)) as [[[server |] redirect_uri] | e];
      cbn [trace fst]; try (rewrite Hnone; cbn; lia).
    unfold served in *. rewrite omap_app, Hnone. cbn [app].
    apply (path_sockets w self scopes claims server redirect_uri _ _
             (authenticate_path_of _ _ _ _ _ _)).
  - intros srv Hin.
    destruct (request_token_reaches _ _ _ _ _ Hin eq_refl)
      as (server & redirect_uri & Hstart & Hauth & Hrun).
    destruct (waited_path _ _ _ _ _ _ _ _ _ (authenticate_path_of _ _ _ _ _ _) Hauth)
      as (-> & Hrel & _).
    destruct (start_server_bound _ _ _ Hstart)
      as (failed & host & prt & Htrace & _).
    rewrite Hrun. cbn [trace fst]. split.
    + apply in_or_app. right. exact Hrel.
    + rewrite Htrace, !still_bound_app, still_bound_refused.
      cbn [still_bound].
      destruct (path_sockets w self scopes claims server redirect_uri _ _
                  (authenticate_path_of _ _ _ _ _ _)) as [_ Hfree].
      exact (Hfree server Hauth).
Qed.

Lemma listener_released_witness :
  In (Release first_listener)
     (trace (_request_token (silent_host false)
               (Sample.credential (silent_host false) Sample.no_kwargs)
               ["scope"] None))
  /\ still_bound
       (trace (_request_token (silent_host false)
                 (Sample.credential (silent_host false) Sample.no_kwargs)
                 ["scope"] None)) [] = [].
Proof.
  destruct (listener_released (silent_host false)
              (Sample.credential (silent_host false) Sample.no_kwargs)
              ["scope"] None) as [_ Hreleased].
  apply (Hreleased first_listener).
  vm_compute. do 4 right. left. reflexivity.
Defined.

(** C5, as stated, fails: when the flow comes back without [auth_uri], the
    call raises after the bind and the listener is still bound at that
    moment; the same holds when the browser does not open. *)
Lemma listener_left_bound :
  (outcome (_request_token bare_flow_host
              (Sample.credential bare_flow_host Sample.no_kwargs) ["scope"] None)
   = Raise (CredentialUnavailableError "Failed to begin authentication flow")
   /\ still_bound
        (trace (_request_token bare_flow_host
                  (Sample.credential bare_flow_host Sample.no_kwargs)
                  ["scope"] None)) []
      = [first_listener])
  /\ (outcome (_request_token headless_host
                 (Sample.credential headless_host Sample.no_kwargs) ["scope"] None)
      = Raise (CredentialUnavailableError "Failed to open a browser")
      /\ still_bound
           (trace (_request_token headless_host
                     (Sample.credential headless_host Sample.no_kwargs)
                     ["scope"] None)) []
         = [first_listener]).
Proof. repeat split; vm_compute; reflexivity. Qed.

(** *** The constructor *)

(** C10. [__init__] raises [ValueError] for every non-empty [redirect_uri]
    whose parse has no hostname or no port; it runs no flow (it logs
    nothing, by its type). So a credential that [__init__] returned has
    either no parsed URL or one whose hostname and port are both present
    (and true in Python's sense: a non-empty host, a non-zero port), and
    this is the URL the explicit branch of [_request_token] binds. *)
Theorem redirect_uri_validated (w : World) (kw : kwargs) :
  (forall uri,
      kw_redirect_uri kw = Some uri ->
      uri <> "" ->
      hostname (urlparse w uri) = PyNone
      \/ port (urlparse w uri) = Return PyNone ->
      __init__ w kw = Raise (ValueError redirect_uri_error))
  /\ (forall self,
      __init__ w kw = Return self ->
      _parsed_url self = None
      \/ exists parsed p,
          _parsed_url self = Some parsed
          /\ hostname parsed <> PyNone /\ truthy (hostname parsed) = true
          /\ port parsed = Return p
          /\ p <> PyNone /\ truthy p = true
          /\ exists bound,
              trace (start_server self)
              = [Bind (hostname parsed) p (_timeout self) bound]).
Proof.
  unfold __init__, parse_redirect_uri. split.
  - intros uri -> Hne Hmissing.
    assert (Huri : truthy (PyStr uri) = true).
    { cbn [truthy]. destruct (String.eqb_spec uri ""); [contradiction | reflexivity]. }
    rewrite Huri. destruct Hmissing as [Hhost | Hport].
    + rewrite Hhost. reflexivity.
    + rewrite Hport. destruct (truthy (hostname (urlparse w uri))); reflexivity.
  - intros self.
    destruct (kw_redirect_uri kw) as [uri |]; [| intros [= <-]; left; reflexivity].
    destruct (truthy (PyStr uri)); [| intros [= <-]; left; reflexivity].
    destruct (truthy (hostname (urlparse w uri))) eqn:Hhost; [| discriminate].
    destruct (port (urlparse w uri)) as [p | e] eqn:Hport; [| discriminate].
    destruct (truthy p) eqn:Hp; [| discriminate].
    intros [= <-]. right. exists (urlparse w uri), p. cbn [_parsed_url].
    repeat split; try assumption.
    + intros Hnone. rewrite Hnone in Hhost. discriminate.
    + intros ->. discriminate.
    + unfold start_server. cbn [_parsed_url].
      rewrite (bind_explicit_run _ _ p Hport). cbn [trace fst].
      eexists. reflexivity.
Qed.

(** A caller who passes a URL without a port, and one who passes a host and
    port without a scheme, which [urlparse] reads as a URL without host. *)
Lemma redirect_uri_validated_witness :
  __init__ full_host (Sample.with_redirect_uri "http://localhost")
  = Raise (ValueError redirect_uri_error)
  /\ __init__ full_host (Sample.with_redirect_uri "localhost:8400")
     = Raise (ValueError redirect_uri_error).
Proof.
  split.
  - destruct (redirect_uri_validated full_host
                (Sample.with_redirect_uri "http://localhost")) as [Hraise _].
    apply (Hraise "http://localhost");
      [reflexivity | discriminate | right; reflexivity].
  - destruct (redirect_uri_validated full_host
                (Sample.with_redirect_uri "localhost:8400")) as [Hraise _].
    apply (Hraise "localhost:8400");
      [reflexivity | discriminate | left; reflexivity].
Defined.

End BrowserFacts.

(** ** The device code flow *)

Module DeviceFacts.
Import DeviceCode DeviceSpec.

Lemma pyval_eqb_eq (a b : pyval) : pyval_eqb a b = true <-> a = b.
Proof.
  destruct a, b; cbn [pyval_eqb]; split; try discriminate; try reflexivity.
  - intros H. apply String.eqb_eq in H. congruence.
  - intros [= ->]. apply String.eqb_refl.
  - intros H. apply Z.eqb_eq in H. congruence.
  - intros [= ->]. apply Z.eqb_refl.
Qed.

Lemma exit_condition_spec (deadline : Z) (now : Q) :
  exit_condition deadline now = true <-> (inject_Z deadline < now)%Q.
Proof.
  unfold exit_condition. rewrite negb_true_iff. split.
  - intros H. apply Qnot_le_lt. intros Hle.
    apply Qle_bool_iff in Hle. congruence.
  - intros H. destruct (Qle_bool now (inject_Z deadline)) eqn:Hle; [| reflexivity].
    apply Qle_bool_iff in Hle. exfalso. exact (Qlt_not_le _ _ H Hle).
Qed.

(** [int(t)] does not exceed a clock reading that is not negative. *)
Lemma int_of_time_le (t : Q) : (0 <= t)%Q -> (inject_Z (int_of_time t) <= t)%Q.
Proof.
  intros Ht. unfold int_of_time. destruct t as [n d].
  assert (Hnum : 0 <= n).
  { unfold Qle in Ht. cbn in Ht. lia. }
  cbn [Qnum Qden]. rewrite Z.quot_div_nonneg by lia.
  apply (Qfloor_le (n # d)).
Qed.

Section Flow.
Variables (w : World) (self : DeviceCodeCredential).
Variables (scopes : list string) (claims : option string).

Lemma prompt_no_poll (flow : gmap string pyval) :
  Forall (fun ev => is_poll ev = false) (trace (prompt self flow)).
Proof.
  unfold prompt, getitem, utc_of.
  destruct (_prompt_callback self) as [callback |].
  - destruct (flow !! "verification_uri") as [uri |]; [| constructor].
    destruct (flow !! "user_code") as [code |]; [| constructor].
    destruct (flow !! "expires_at") as [[| s | ts] |];
      cbn [bind ret raise emit lift app trace fst]; repeat constructor.
  - destruct (flow !! "message"); repeat constructor.
Qed.

(** What [observed_timeout] answers, and that it calls nothing. *)
Lemma observed_timeout_run (flow : gmap string pyval) :
  trace (observed_timeout self flow) = []
  /\ (forall timeout,
         outcome (observed_timeout self flow) = Return (Some timeout) <->
         _timeout self = Some timeout
         /\ exists expires_in,
             flow !! "expires_in" = Some (PyInt expires_in)
             /\ timeout < expires_in)
  /\ (outcome (observed_timeout self flow) = Return None <->
      _timeout self = None
      \/ exists timeout expires_in,
          _timeout self = Some timeout
          /\ flow !! "expires_in" = Some (PyInt expires_in)
          /\ expires_in <= timeout).
Proof.
  unfold observed_timeout, getitem, int_lt.
  destruct (_timeout self) as [timeout |].
  - destruct (flow !! "expires_in") as [[| s | expires_in] |];
      cbn [bind ret raise app trace outcome fst snd].
    1, 2, 4: split; [reflexivity |]; split;
      [ intros t; split; [discriminate | intros (_ & e & He & _); discriminate]
      | split; [discriminate
               | intros [H | (t & e & _ & He & _)]; discriminate] ].
    split; [reflexivity |].
    destruct (Z.ltb_spec timeout expires_in) as [Hlt | Hge]; split.
    + intros t. split.
      * intros [= <-]. split; [reflexivity |]. exists expires_in. auto.
      * intros ([= <-] & _). reflexivity.
    + split; [discriminate |].
      intros [H | (t & e & [= <-] & [= <-] & Hle)]; [discriminate | lia].
    + intros t. split; [discriminate |].
      intros ([= <-] & e & [= <-] & Hlt). lia.
    + split; [| reflexivity].
      intros _. right. exists timeout, expires_in. auto.
  - cbn [ret trace outcome fst snd]. split; [reflexivity |]. split.
    + intros t. split; [discriminate | intros [H _]; discriminate].
    + split; [intros _; left; reflexivity | reflexivity].
Qed.

(** The polling call that a run made, and what the run did with its
    result. *)
Lemma polled (flow : gmap string pyval) (ec : option (Q -> bool))
  (claims' : option string) :
  In (AcquireTokenByDeviceFlow flow ec claims')
     (trace (_request_token w self scopes claims)) ->
  initiate_device_flow w scopes = Return flow
  /\ claims' = claims
  /\ (exists observed,
        outcome (observed_timeout self flow) = Return observed
        /\ ec = exit_condition_for w observed)
  /\ outcome (_request_token w self scopes claims)
     = match acquire_token_by_device_flow w flow ec claims with
       | Return result =>
           if still_pending result
           then Raise (ClientAuthenticationError
                         "Timed out waiting for user to authenticate")
           else Return result
       | Raise e => Raise e
       end.
Proof.
  unfold _request_token.
  destruct (get_app w) as [[] | e]; cbn [bind emit lift app trace outcome fst snd];
    [| cbn [In]; intuition discriminate].
  destruct (initiate_device_flow w scopes) as [flow0 | e];
    cbn [bind emit lift app trace outcome fst snd];
    [| cbn [In]; intuition discriminate].
  destruct (flow0 !! "error");
    [cbn [raise trace fst In]; intuition discriminate |].
  pose proof (prompt_no_poll flow0) as Hprompt.
  destruct (prompt self flow0) as [tp [[] | e]];
    cbn [trace fst] in Hprompt; cbn [bind emit lift app trace outcome fst snd].
  2: { cbn [In]. intros [H | [H | H]]; try discriminate.
       rewrite List.Forall_forall in Hprompt. apply Hprompt in H. discriminate. }
  destruct (observed_timeout_run flow0) as (Hsilent & _).
  destruct (observed_timeout self flow0) as [tobs [observed | e]] eqn:Hobs;
    cbn [trace fst] in Hsilent; subst tobs;
    cbn [bind emit lift app trace outcome fst snd].
  2: { rewrite app_nil_r. cbn [In]. intros [H | [H | H]]; try discriminate.
       rewrite List.Forall_forall in Hprompt. apply Hprompt in H. discriminate. }
  assert (Hresult :
            forall ec0 pre,
              In (AcquireTokenByDeviceFlow flow ec claims')
                 (GetApp :: InitiateDeviceFlow scopes
                  :: tp ++ pre ++ [AcquireTokenByDeviceFlow flow0 ec0 claims]) ->
              Forall (fun ev => is_poll ev = false) pre ->
              flow = flow0 /\ ec = ec0 /\ claims' = claims).
  { intros ec0 pre Hin Hpre. cbn [In] in Hin.
    destruct Hin as [H | [H | H]]; try discriminate.
    apply in_app_or in H. destruct H as [H | H].
    - rewrite List.Forall_forall in Hprompt. apply Hprompt in H. discriminate.
    - apply in_app_or in H. destruct H as [H | H].
      + rewrite List.Forall_forall in Hpre. apply Hpre in H. discriminate.
      + cbn [In] in H. destruct H as [[= <- <- <-] | []]. auto. }
  unfold still_pending.
  destruct observed as [timeout |];
    cbn [bind emit lift app trace outcome fst snd].
  - destruct (acquire_token_by_device_flow w flow0
                (Some (exit_condition (int_of_time (time_time w) + timeout)))
                claims) as [result | e] eqn:Hpoll;
      cbn [bind emit lift app trace outcome fst snd].
    + intros Hin.
      assert (Hin' : In (AcquireTokenByDeviceFlow flow ec claims')
                       (GetApp :: InitiateDeviceFlow scopes
                        :: tp ++ [TimeTime]
                        ++ [AcquireTokenByDeviceFlow flow0
                              (Some (exit_condition
                                       (int_of_time (time_time w) + timeout)))
                              claims])).
      { destruct (result !! "access_token");
          [| destruct (pyval_eqb _ _)];
          cbn [trace fst ret raise app] in Hin; rewrite ?app_nil_r in Hin;
          exact Hin. }
      destruct (Hresult _ _ Hin') as (-> & -> & ->); [repeat constructor |].
      split; [reflexivity |]. split; [reflexivity |]. split.
      * exists (Some timeout). split; [rewrite Hobs |]; reflexivity.
      * rewrite Hpoll.
        destruct (result !! "access_token");
          [| destruct (pyval_eqb _ _)]; reflexivity.
    + intros Hin.
      destruct (Hresult _ [TimeTime] Hin) as (-> & -> & ->); [repeat constructor |].
      split; [reflexivity |]. split; [reflexivity |]. split.
      * exists (Some timeout). split; [rewrite Hobs |]; reflexivity.
      * rewrite Hpoll. reflexivity.
  - destruct (acquire_token_by_device_flow w flow0 None claims)
      as [result | e] eqn:Hpoll;
      cbn [bind emit lift app trace outcome fst snd].
    + intros Hin.
      assert (Hin' : In (AcquireTokenByDeviceFlow flow ec claims')
                       (GetApp :: InitiateDeviceFlow scopes
                        :: tp ++ []
                        ++ [AcquireTokenByDeviceFlow flow0 None claims])).
      { destruct (result !! "access_token");
          [| destruct (pyval_eqb _ _)];
          cbn [trace fst ret raise app] in Hin; rewrite ?app_nil_r in Hin;
          exact Hin. }
      destruct (Hresult _ _ Hin') as (-> & -> & ->); [constructor |].
      split; [reflexivity |]. split; [reflexivity |]. split.
      * exists None. split; [rewrite Hobs |]; reflexivity.
      * rewrite Hpoll.
        destruct (result !! "access_token");
          [| destruct (pyval_eqb _ _)]; reflexivity.
    + intros Hin.
      destruct (Hresult _ [] Hin) as (-> & -> & ->); [constructor |].
      split; [reflexivity |]. split; [reflexivity |]. split.
      * exists None. split; [rewrite Hobs |]; reflexivity.
      * rewrite Hpoll. reflexivity.
Qed.

End Flow.

(** C3. For the polling call of a device code flow: an exit condition is
    passed exactly when the credential has a timeout and that timeout is
    strictly less than the flow's [expires_in]; the condition passed is true
    exactly at the clock readings beyond [int(time.time()) + timeout], the
    clock read once before polling starts, so it is true at every reading
    beyond start plus timeout; without it the call is made with no exit
    condition at all, and when the polling stops is MSAL's business. *)
Theorem caller_deadline (w : World) (self : DeviceCodeCredential)
  (scopes : list string) (claims : option string)
  (flow : gmap string pyval) (ec : option (Q -> bool))
  (claims' : option string) :
  In (AcquireTokenByDeviceFlow flow ec claims')
     (trace (_request_token w self scopes claims)) ->
  ((exists f, ec = Some f) <->
   (exists timeout expires_in,
       _timeout self = Some timeout
       /\ flow !! "expires_in" = Some (PyInt expires_in)
       /\ timeout < expires_in))
  /\ (forall f,
      ec = Some f ->
      exists timeout,
        _timeout self = Some timeout
        /\ (forall now,
               f now = true <->
               (inject_Z (int_of_time (time_time w) + timeout) < now)%Q)
        /\ ((0 <= time_time w)%Q ->
            forall now,
              (time_time w + inject_Z timeout < now)%Q -> f now = true))
  /\ (ec = None ->
      _timeout self = None
      \/ exists timeout expires_in,
          _timeout self = Some timeout
          /\ flow !! "expires_in" = Some (PyInt expires_in)
          /\ expires_in <= timeout).
Proof.
  intros Hin.
  destruct (polled _ _ _ _ _ _ _ Hin) as (_ & _ & (observed & Hobs & ->) & _).
  destruct (observed_timeout_run self flow) as (_ & Hsome & Hnone).
  destruct observed as [timeout |]; cbn [exit_condition_for].
  - apply Hsome in Hobs. destruct Hobs as (Htimeout & expires_in & Hexp & Hlt).
    split; [| split].
    + split; [| eexists; reflexivity].
      intros _. exists timeout, expires_in. auto.
    + intros f [= <-]. exists timeout. split; [exact Htimeout |]. split.
      * intros now. apply exit_condition_spec.
      * intros Hclock now Hnow. apply exit_condition_spec.
        eapply Qle_lt_trans; [| exact Hnow].
        rewrite inject_Z_plus. apply Qplus_le_compat; [| apply Qle_refl].
        apply int_of_time_le. exact Hclock.
    + discriminate.
  - apply Hnone in Hobs. split; [| split].
    + split; [intros [f Hf]; discriminate |].
      intros (timeout & expires_in & Htimeout & Hexp & Hlt).
      destruct Hobs as [Hno | (t & e & Ht & He & Hle)]; [congruence |].
      rewrite Htimeout in Ht. rewrite Hexp in He.
      injection Ht as <-. injection He as <-. lia.
    + discriminate.
    + intros _. exact Hobs.
Qed.

Lemma caller_deadline_witness :
  ((exists f, Some (exit_condition 1700000005) = Some f)
   <-> (exists timeout expires_in,
           Some 5 = Some timeout
           /\ Sample.device_flow !! "expires_in" = Some (PyInt expires_in)
           /\ timeout < expires_in))
  /\ exit_condition 1700000005 (1700000005 # 1) = false
  /\ exit_condition 1700000005 (17000000051 # 10) = true.
Proof.
  destruct (caller_deadline idle_host (__init__ (Some 5) None) ["scope"] None
              Sample.device_flow (Some (exit_condition 1700000005)) None)
    as (Hiff & Hdeadline & _).
  - cbv [trace _request_token idle_host Sample.device_host bind emit lift
           get_app initiate_device_flow fst snd app].
    right. right. vm_compute. right. right. left. reflexivity.
  - split; [exact Hiff |]. split; [reflexivity |].
    destruct (Hdeadline _ eq_refl) as (timeout & [= <-] & Hspec & _).
    apply Hspec. reflexivity.
Defined.

(** C7. When the polling call returned a result: if the result has no
    [access_token] and its [error] is "authorization_pending",
    [_request_token] raises [ClientAuthenticationError] with the message
    "Timed out waiting for user to authenticate" (quoted in lower case by
    the specification); a result with any other [error], or none, and a
    result with an [access_token], is returned as it is. *)
Theorem pending_is_timeout (w : World) (self : DeviceCodeCredential)
  (scopes : list string) (claims : option string)
  (flow : gmap string pyval) (ec : option (Q -> bool))
  (claims' : option string) (result : gmap string pyval) :
  In (AcquireTokenByDeviceFlow flow ec claims')
     (trace (_request_token w self scopes claims)) ->
  acquire_token_by_device_flow w flow ec claims' = Return result ->
  (result !! "access_token" = None ->
   result !! "error" = Some (PyStr "authorization_pending") ->
   exists message,
     outcome (_request_token w self scopes claims)
     = Raise (ClientAuthenticationError message)
     /\ message = "Timed out waiting for user to authenticate"
     /\ lower message = "timed out waiting for user to authenticate")
  /\ (result !! "error" <> Some (PyStr "authorization_pending") ->
      outcome (_request_token w self scopes claims) = Return result)
  /\ (result !! "access_token" <> None ->
      outcome (_request_token w self scopes claims) = Return result).
Proof.
  intros Hin Hpoll.
  destruct (polled _ _ _ _ _ _ _ Hin) as (_ & -> & _ & Hout).
  rewrite Hpoll in Hout. rewrite Hout. unfold still_pending, dict_get.
  split; [| split].
  - intros Htoken Herror. rewrite Htoken, Herror.
    eexists. split; [reflexivity |]. split; reflexivity.
  - intros Herror. destruct (result !! "access_token"); [reflexivity |].
    destruct (result !! "error") as [v |]; [| reflexivity].
    destruct (pyval_eqb v (PyStr "authorization_pending")) eqn:Hv; [| reflexivity].
    apply pyval_eqb_eq in Hv. congruence.
  - intros Htoken. destruct (result !! "access_token"); [reflexivity | congruence].
Qed.

Lemma pending_is_timeout_witness :
  exists message,
    outcome (_request_token idle_host (__init__ (Some 5) None) ["scope"] None)
    = Raise (ClientAuthenticationError message)
    /\ message = "Timed out waiting for user to authenticate"
    /\ lower message = "timed out waiting for user to authenticate".
Proof.
  destruct (pending_is_timeout idle_host (__init__ (Some 5) None) ["scope"] None
              Sample.device_flow (Some (exit_condition 1700000005)) None
              Sample.pending) as [Hpending _].
  - cbv [trace _request_token idle_host Sample.device_host bind emit lift
           get_app initiate_device_flow fst snd app].
    right. right. vm_compute. right. right. left. reflexivity.
  - reflexivity.
  - apply Hpending; vm_compute; reflexivity.
Defined.

End DeviceFacts.

(** ** More on the device code flow *)

Module DeviceMore.
Import DeviceCode DeviceSpec DeviceCases DeviceFacts.

Section Run.
Variables (w : World) (self : DeviceCodeCredential).
Variables (scopes : list string) (claims : option string).

Lemma device_path_of :
  device_path w self scopes claims
    (trace (_request_token w self scopes claims))
    (outcome (_request_token w self scopes claims)).
Proof.
  unfold _request_token.
  destruct (get_app w) as [[] | e] eqn:Happ;
    cbn [bind emit lift app trace outcome fst snd];
    [| apply device_app_raises; exact Happ].
  destruct (initiate_device_flow w scopes) as [flow | e] eqn:Hflow;
    cbn [bind emit lift app trace outcome fst snd];
    [| apply device_initiate_raises; assumption].
  destruct (flow !! "error") as [v |] eqn:Herr.
  { cbn [raise trace outcome fst snd].
    apply (device_not_begun w self scopes claims flow Happ Hflow).
    rewrite Herr. discriminate. }
  destruct (observed_timeout_run self flow) as (Hsilent & _).
  destruct (prompt self flow) as [tp [[] | e]] eqn:Hprompt;
    cbn [bind emit lift app trace outcome fst snd].
  2: { replace tp with (trace (prompt self flow)) by (rewrite Hprompt; reflexivity).
       apply (device_prompt_raises w self scopes claims flow e Happ Hflow Herr).
       rewrite Hprompt. reflexivity. }
  assert (Htp : tp = trace (prompt self flow)) by (rewrite Hprompt; reflexivity).
  assert (Hpo : outcome (prompt self flow) = Return tt)
    by (rewrite Hprompt; reflexivity).
  destruct (observed_timeout self flow) as [tobs [observed | e]] eqn:Hobs;
    cbn [trace fst] in Hsilent; subst tobs;
    cbn [bind emit lift app trace outcome fst snd].
  2: { rewrite app_nil_r, Htp.
       apply (device_timeout_raises w self scopes claims flow e Happ Hflow Herr Hpo).
       rewrite Hobs. reflexivity. }
  pose proof (device_polled w self scopes claims flow observed Happ Hflow Herr Hpo)
    as Hpath.
  rewrite Hobs in Hpath. specialize (Hpath eq_refl).
  rewrite <- Htp in Hpath. unfold after_poll, still_pending in Hpath.
  destruct observed as [timeout |];
    cbn [exit_condition_for clock_reads app] in Hpath;
    cbn [bind emit lift app trace outcome fst snd];
    match goal with
    | |- context [acquire_token_by_device_flow w flow ?ec claims] =>
        destruct (acquire_token_by_device_flow w flow ec claims) as [result | e]
    end;
    cbn [bind emit lift app trace outcome fst snd];
    try exact Hpath;
    (destruct (result !! "access_token");
     [| destruct (pyval_eqb (dict_get result "error")
                    (PyStr "authorization_pending"))];
     cbn [ret raise trace outcome fst snd]; rewrite ?app_nil_r; exact Hpath).
Qed.

Lemma polls_none (t : list event) :
  Forall (fun ev => is_poll ev = false) t -> polls t = [].
Proof.
  induction 1 as [| ev t Hev _ IH]; [reflexivity |].
  unfold polls in *. destruct ev; try discriminate; exact IH.
Qed.

(** The prompt reads no clock and polls nothing; when it returns, it has
    made one call, on the values of the flow. *)
Lemma prompt_quiet (flow : gmap string pyval) :
  Forall (fun ev => is_poll ev = false /\ is_clock ev = false)
    (trace (prompt self flow)).
Proof.
  unfold prompt, getitem, utc_of.
  destruct (_prompt_callback self) as [callback |].
  - destruct (flow !! "verification_uri") as [uri |]; [| constructor].
    destruct (flow !! "user_code") as [code |]; [| constructor].
    destruct (flow !! "expires_at") as [[| s | ts] |];
      cbn [bind ret raise emit lift app trace fst]; repeat constructor.
  - destruct (flow !! "message"); repeat constructor.
Qed.

Lemma prompt_returns (flow : gmap string pyval) :
  outcome (prompt self flow) = Return tt ->
  match _prompt_callback self with
  | Some callback =>
      exists verification_uri user_code ts,
        flow !! "verification_uri" = Some verification_uri
        /\ flow !! "user_code" = Some user_code
        /\ flow !! "expires_at" = Some (PyInt ts)
        /\ callback verification_uri user_code (utcfromtimestamp ts) = Return tt
        /\ trace (prompt self flow)
           = [PromptCallback verification_uri user_code (utcfromtimestamp ts)]
  | None =>
      exists message,
        flow !! "message" = Some message
        /\ trace (prompt self flow) = [Print message]
  end.
Proof.
  unfold prompt, getitem, utc_of.
  destruct (_prompt_callback self) as [callback |].
  - destruct (flow !! "verification_uri") as [uri |]; [| discriminate].
    destruct (flow !! "user_code") as [code |]; [| discriminate].
    destruct (flow !! "expires_at") as [[| s | ts] |]; try discriminate.
    cbn [bind ret raise emit lift app trace outcome fst snd].
    intros Hcall. exists uri, code, ts. repeat split. exact Hcall.
  - destruct (flow !! "message") as [message |]; [| discriminate].
    intros _. exists message. split; reflexivity.
Qed.


Lemma observed_timeout_raises (flow : gmap string pyval) (e : exn) :
  outcome (observed_timeout self flow) = Raise e ->
  (e = KeyError "expires_in" /\ flow !! "expires_in" = None
   /\ _timeout self <> None)
  \/ (exists msg, e = TypeError msg).
Proof.
  unfold observed_timeout, getitem, int_lt.
  destruct (_timeout self) as [timeout |]; [| discriminate].
  destruct (flow !! "expires_in") as [[| s | expires_in] |];
    cbn [bind ret raise app trace outcome fst snd]; try discriminate;
    intros [= <-].
  - right. eexists. reflexivity.
  - right. eexists. reflexivity.
  - left. repeat split. discriminate.
Qed.

(** A polling call in the log is the one the path ends with. *)
Lemma poll_in_path (t : list event) (r : result (gmap string pyval))
  (flow : gmap string pyval) (ec : option (Q -> bool)) (claims' : option string) :
  device_path w self scopes claims t r ->
  In (AcquireTokenByDeviceFlow flow ec claims') t ->
  exists observed,
    initiate_device_flow w scopes = Return flow
    /\ outcome (prompt self flow) = Return tt
    /\ outcome (observed_timeout self flow) = Return observed
    /\ ec = exit_condition_for w observed
    /\ claims' = claims
    /\ t = GetApp :: InitiateDeviceFlow scopes :: trace (prompt self flow)
             ++ clock_reads observed
             ++ [AcquireTokenByDeviceFlow flow ec claims']
    /\ r = after_poll (acquire_token_by_device_flow w flow ec claims').
Proof.
  assert (Hquiet : forall flow0,
             ~ In (AcquireTokenByDeviceFlow flow ec claims')
                 (trace (prompt self flow0))).
  { intros flow0 Hbad. pose proof (prompt_quiet flow0) as Hall.
    rewrite List.Forall_forall in Hall. apply Hall in Hbad.
    destruct Hbad as [Hbad _]. discriminate. }
  destruct 1 as [e Happ | e Happ Hflow | flow0 Happ Hflow Herr
                | flow0 e Happ Hflow Herr Hprompt
                | flow0 e Happ Hflow Herr Hprompt Hobs
                | flow0 observed Happ Hflow Herr Hprompt Hobs];
    intros Hin; cbn [In] in Hin;
    try (exfalso;
         repeat (destruct Hin as [Hin | Hin]; [discriminate |]);
         first [contradiction | eapply Hquiet; eassumption]).
  destruct Hin as [Hin | [Hin | Hin]]; try discriminate.
  apply in_app_or in Hin. destruct Hin as [Hin | Hin];
    [exfalso; eapply Hquiet; eassumption |].
  apply in_app_or in Hin. destruct Hin as [Hin | Hin].
  { destruct observed; cbn [clock_reads In] in Hin;
      [destruct Hin as [Hin | []]; discriminate | contradiction]. }
  cbn [In] in Hin. destruct Hin as [[= <- <- <-] | []].
  exists observed. repeat split; assumption.
Qed.

End Run.

(** X1. A flow that comes back from [initiate_device_flow] with the key
    [error] ends the call at once: nothing is shown to the user and nothing
    is polled, and the call raises [ClientAuthenticationError] "Couldn't
    begin authentication: " followed by the flow's [error_description] when
    it has one that is true, and by its [error] otherwise. *)
Theorem flow_not_begun (w : World) (self : DeviceCodeCredential)
  (scopes : list string) (claims : option string)
  (flow : gmap string pyval) (error : pyval) :
  get_app w = Return tt ->
  initiate_device_flow w scopes = Return flow ->
  flow !! "error" = Some error ->
  trace (_request_token w self scopes claims)
  = [GetApp; InitiateDeviceFlow scopes]
  /\ (forall description,
         flow !! "error_description" = Some description ->
         truthy description = true ->
         outcome (_request_token w self scopes claims)
         = Raise (ClientAuthenticationError
                    ("Couldn't begin authentication: "
                     +:+ format_py description)))
  /\ (flow !! "error_description" = None
      \/ (exists description,
             flow !! "error_description" = Some description
             /\ truthy description = false) ->
      outcome (_request_token w self scopes claims)
      = Raise (ClientAuthenticationError
                 ("Couldn't begin authentication: " +:+ format_py error))).
Proof.
  intros Happ Hflow Herr. unfold _request_token.
  rewrite Happ. cbn [bind emit lift app trace outcome fst snd].
  rewrite Hflow. cbn [bind emit lift app trace outcome fst snd].
  rewrite Herr. cbn [raise trace outcome fst snd].
  split; [reflexivity |]. unfold py_or, dict_get. rewrite Herr. split.
  - intros description -> ->. reflexivity.
  - intros [-> | (description & -> & ->)]; reflexivity.
Qed.

Lemma flow_not_begun_witness :
  outcome (_request_token (device_host_with refused_flow)
             (__init__ None None) ["scope"] None)
  = Raise (ClientAuthenticationError
             "Couldn't begin authentication: AADSTS7000218: no client secret")
  /\ outcome (_request_token (device_host_with terse_refused_flow)
               (__init__ None None) ["scope"] None)
     = Raise (ClientAuthenticationError
                "Couldn't begin authentication: invalid_client").
Proof.
  split.
  - destruct (flow_not_begun (device_host_with refused_flow)
                (__init__ None None) ["scope"] None refused_flow
                (PyStr "invalid_client") eq_refl eq_refl)
      as (_ & Hdescribed & _); [vm_compute; reflexivity |].
    apply (Hdescribed (PyStr "AADSTS7000218: no client secret"));
      vm_compute; reflexivity.
  - destruct (flow_not_begun (device_host_with terse_refused_flow)
                (__init__ None None) ["scope"] None terse_refused_flow
                (PyStr "invalid_client") eq_refl eq_refl)
      as (_ & _ & Hterse); [vm_compute; reflexivity |].
    apply Hterse. left. vm_compute. reflexivity.
Defined.

(** X2. Whenever [_request_token] polls, it has prompted the user exactly
    once before: with a prompt callback, by one call of the callback on the
    flow's [verification_uri], [user_code] and the date of [expires_at],
    and nothing is printed; without one, by printing the flow's [message].
    Between the prompt and the polling call only the clock may be read, and
    the polling call is the last call of the run. *)
Theorem prompted_before_polling (w : World) (self : DeviceCodeCredential)
  (scopes : list string) (claims : option string)
  (flow : gmap string pyval) (ec : option (Q -> bool))
  (claims' : option string) :
  In (AcquireTokenByDeviceFlow flow ec claims')
     (trace (_request_token w self scopes claims)) ->
  exists shown clock,
    trace (_request_token w self scopes claims)
    = GetApp :: InitiateDeviceFlow scopes :: shown
        :: clock ++ [AcquireTokenByDeviceFlow flow ec claims']
    /\ (clock = [] \/ clock = [TimeTime])
    /\ match _prompt_callback self with
       | Some callback =>
           exists verification_uri user_code ts,
             flow !! "verification_uri" = Some verification_uri
             /\ flow !! "user_code" = Some user_code
             /\ flow !! "expires_at" = Some (PyInt ts)
             /\ shown = PromptCallback verification_uri user_code
                          (utcfromtimestamp ts)
       | None =>
           exists message,
             flow !! "message" = Some message /\ shown = Print message
       end.
Proof.
  intros Hin.
  destruct (poll_in_path _ _ _ _ _ _ _ _ _ (device_path_of _ _ _ _) Hin)
    as (observed & _ & Hprompt & _ & _ & _ & Ht & _).
  pose proof (prompt_returns self flow Hprompt) as Hshown.
  rewrite Ht. exists (hd GetApp (trace (prompt self flow))), (clock_reads observed).
  destruct (_prompt_callback self) as [callback |].
  - destruct Hshown as (uri & code & ts & Huri & Hcode & Hts & _ & ->).
    split; [reflexivity |]. split; [destruct observed; auto |].
    exists uri, code, ts. repeat split; assumption.
  - destruct Hshown as (message & Hmessage & ->).
    split; [reflexivity |]. split; [destruct observed; auto |].
    exists message. split; [assumption | reflexivity].
Qed.

Lemma prompted_before_polling_witness :
  exists shown clock,
    trace (_request_token prompt_host (__init__ None (Some show_code))
             ["scope"] None)
    = GetApp :: InitiateDeviceFlow ["scope"] :: shown
        :: clock ++ [AcquireTokenByDeviceFlow Sample.device_flow None None]
    /\ (clock = [] \/ clock = [TimeTime])
    /\ exists verification_uri user_code ts,
         Sample.device_flow !! "verification_uri" = Some verification_uri
         /\ Sample.device_flow !! "user_code" = Some user_code
         /\ Sample.device_flow !! "expires_at" = Some (PyInt ts)
         /\ shown = PromptCallback verification_uri user_code
                      (utcfromtimestamp ts).
Proof.
  apply (prompted_before_polling prompt_host (__init__ None (Some show_code))
           ["scope"] None Sample.device_flow None None).
  vm_compute. do 3 right. left. reflexivity.
Defined.

(** The body of [_request_token] on a flow without [expires_in]. *)
Lemma expires_in_read_in_body (w : World) (self : DeviceCodeCredential)
  (scopes : list string) (claims : option string) (flow : gmap string pyval) :
  get_app w = Return tt ->
  initiate_device_flow w scopes = Return flow ->
  flow !! "error" = None ->
  outcome (prompt self flow) = Return tt ->
  flow !! "expires_in" = None ->
  match _timeout self with
  | None =>
      polls (trace (_request_token w self scopes claims))
      = [(flow, None, claims)]
  | Some _ =>
      outcome (_request_token w self scopes claims)
      = Raise (KeyError "expires_in")
      /\ polls (trace (_request_token w self scopes claims)) = []
  end.
Proof.
  intros Happ Hflow Herr Hprompt Hexp.
  assert (Hquiet : polls (trace (prompt self flow)) = []).
  { apply polls_none. eapply List.Forall_impl; [| apply prompt_quiet].
    intros ev [H _]; exact H. }
  pose proof (device_path_of w self scopes claims) as Hpath.
  destruct Hpath as [e Happ' | e Happ' Hflow' | flow0 Happ' Hflow' Herr'
                    | flow0 e Happ' Hflow' Herr' Hprompt'
                    | flow0 e Happ' Hflow' Herr' Hprompt' Hobs
                    | flow0 observed Happ' Hflow' Herr' Hprompt' Hobs];
    try congruence;
    rewrite Hflow in Hflow'; injection Hflow' as <-; try congruence.
  - destruct (observed_timeout_raises self flow e Hobs)
      as [(-> & _ & Hset) | (msg & ->)].
    + destruct (_timeout self); [| congruence]. split; [reflexivity |].
      unfold polls in *. change (omap poll_of (trace (prompt self flow)) = []).
      exact Hquiet.
    + exfalso. revert Hobs. unfold observed_timeout, getitem.
      destruct (_timeout self); [| discriminate]. rewrite Hexp. discriminate.
  - revert Hobs. unfold observed_timeout, getitem.
    destruct (_timeout self) as [timeout |].
    + rewrite Hexp. discriminate.
    + intros [= <-]. unfold polls in *. cbn [clock_reads exit_condition_for app].
      change (omap poll_of
                (trace (prompt self flow)
                 ++ [AcquireTokenByDeviceFlow flow None claims])
              = [(flow, None, claims)]).
      rewrite omap_app, Hquiet. reflexivity.
Qed.

(** X3. The key [expires_in] of the flow is read only when the credential
    has a timeout. For a flow without it (and without [error], the prompt
    done): a credential with no timeout polls, with no exit condition; with
    a timeout the body raises [KeyError] for [expires_in], the caller gets
    what the decorator [wrap_exceptions] raises for that error, and nothing
    is polled. *)
Theorem expires_in_read_with_timeout (wrap_exceptions : exn -> exn)
  (w : World) (self : DeviceCodeCredential)
  (scopes : list string) (claims : option string) (flow : gmap string pyval) :
  get_app w = Return tt ->
  initiate_device_flow w scopes = Return flow ->
  flow !! "error" = None ->
  outcome (prompt self flow) = Return tt ->
  flow !! "expires_in" = None ->
  match _timeout self with
  | None =>
      polls (trace (decorated_request_token wrap_exceptions w self scopes
                      claims))
      = [(flow, None, claims)]
  | Some _ =>
      outcome (decorated_request_token wrap_exceptions w self scopes claims)
      = Raise (wrap_exceptions (KeyError "expires_in"))
      /\ polls (trace (decorated_request_token wrap_exceptions w self scopes
                         claims)) = []
  end.
Proof.
  intros Happ Hflow Herr Hprompt Hexp.
  pose proof (expires_in_read_in_body w self scopes claims flow Happ Hflow
                Herr Hprompt Hexp) as Hbody.
  unfold decorated_request_token.
  rewrite trace_decorated, outcome_decorated.
  destruct (_timeout self); [| exact Hbody].
  destruct Hbody as [-> Hpolls]. split; [reflexivity | exact Hpolls].
Qed.

Lemma expires_in_read_with_timeout_witness :
  polls (trace (decorated_request_token Sample.wrap_exceptions
                  (device_host_with open_ended_flow)
                  (__init__ None None) ["scope"] None))
  = [(open_ended_flow, None, None)]
  /\ (outcome (decorated_request_token Sample.wrap_exceptions
                 (device_host_with open_ended_flow)
                 (__init__ (Some 5) None) ["scope"] None)
      = Raise (ClientAuthenticationError
                 "Authentication failed: 'expires_in'")
      /\ polls (trace (decorated_request_token Sample.wrap_exceptions
                         (device_host_with open_ended_flow)
                         (__init__ (Some 5) None) ["scope"] None)) = []).
Proof.
  split.
  - apply (expires_in_read_with_timeout Sample.wrap_exceptions
             (device_host_with open_ended_flow)
             (__init__ None None) ["scope"] None open_ended_flow);
      vm_compute; reflexivity.
  - apply (expires_in_read_with_timeout Sample.wrap_exceptions
             (device_host_with open_ended_flow)
             (__init__ (Some 5) None) ["scope"] None open_ended_flow);
      vm_compute; reflexivity.
Defined.

(** X4. In every run of [_request_token], whatever the collaborators do:
    there is at most one polling call; the clock is read exactly in the
    runs whose polling call carries an exit condition, so a credential
    without a timeout never reads it. *)
Theorem polls_at_most_once (w : World) (self : DeviceCodeCredential)
  (scopes : list string) (claims : option string) :
  (length (polls (trace (_request_token w self scopes claims))) <= 1)%nat
  /\ (In TimeTime (trace (_request_token w self scopes claims)) <->
      exists flow f claims',
        In (AcquireTokenByDeviceFlow flow (Some f) claims')
           (trace (_request_token w self scopes claims)))
  /\ (_timeout self = None ->
      ~ In TimeTime (trace (_request_token w self scopes claims))).
Proof.
  assert (Hquiet : forall flow,
             polls (trace (prompt self flow)) = []
             /\ ~ In TimeTime (trace (prompt self flow))).
  { intros flow. pose proof (prompt_quiet self flow) as Hall. split.
    - apply polls_none. eapply List.Forall_impl; [| exact Hall].
      intros ev [H _]; exact H.
    - intros Hbad. rewrite List.Forall_forall in Hall. apply Hall in Hbad.
      destruct Hbad as [_ Hbad]. discriminate. }
  assert (Hclock : In TimeTime (trace (_request_token w self scopes claims)) <->
                   exists flow f claims',
                     In (AcquireTokenByDeviceFlow flow (Some f) claims')
                        (trace (_request_token w self scopes claims))).
  { split.
    - intros Hin.
      destruct (device_path_of w self scopes claims)
        as [e Happ | e Happ Hflow | flow Happ Hflow Herr
           | flow e Happ Hflow Herr Hprompt
           | flow e Happ Hflow Herr Hprompt Hobs
           | flow observed Happ Hflow Herr Hprompt Hobs];
        cbn [In] in Hin;
        try (exfalso;
             repeat (destruct Hin as [Hin | Hin]; [discriminate |]);
             first [contradiction | eapply (proj2 (Hquiet _)); eassumption]).
      destruct observed as [timeout |].
      + exists flow, (exit_condition (int_of_time (time_time w) + timeout)), claims.
        right. right. apply in_or_app. right. right. left. reflexivity.
      + exfalso. destruct Hin as [Hin | [Hin | Hin]]; try discriminate.
        apply in_app_or in Hin. destruct Hin as [Hin | Hin];
          [eapply (proj2 (Hquiet _)); eassumption |].
        cbn [clock_reads app In] in Hin. destruct Hin as [Hin | []]. discriminate.
    - intros (flow & f & claims' & Hin).
      destruct (poll_in_path _ _ _ _ _ _ _ _ _ (device_path_of _ _ _ _) Hin)
        as (observed & _ & _ & _ & Hec & _ & Ht & _).
      rewrite Ht. destruct observed as [timeout |]; [| discriminate].
      right. right. apply in_or_app. right. left. reflexivity. }
  split; [| split; [exact Hclock |]].
  - destruct (device_path_of w self scopes claims)
      as [e Happ | e Happ Hflow | flow Happ Hflow Herr
         | flow e Happ Hflow Herr Hprompt
         | flow e Happ Hflow Herr Hprompt Hobs
         | flow observed Happ Hflow Herr Hprompt Hobs];
      unfold polls in *; try (cbn; lia).
    + change (length (omap poll_of (trace (prompt self flow))) <= 1)%nat.
      rewrite (proj1 (Hquiet flow)). cbn; lia.
    + change (length (omap poll_of (trace (prompt self flow))) <= 1)%nat.
      rewrite (proj1 (Hquiet flow)). cbn; lia.
    + change (length (omap poll_of
                        (trace (prompt self flow) ++ clock_reads observed
                         ++ [AcquireTokenByDeviceFlow flow
                               (exit_condition_for w observed) claims]))
              <= 1)%nat.
      rewrite !omap_app, (proj1 (Hquiet flow)).
      destruct observed; cbn; lia.
  - intros Hnone Hin. apply Hclock in Hin.
    destruct Hin as (flow & f & claims' & Hin).
    destruct (poll_in_path _ _ _ _ _ _ _ _ _ (device_path_of _ _ _ _) Hin)
      as (observed & _ & _ & Hobs & Hec & _).
    destruct observed as [timeout |]; [| discriminate].
    apply (proj1 (proj2 (observed_timeout_run self flow)) timeout) in Hobs.
    destruct Hobs as [Hsome _]. congruence.
Qed.

Lemma polls_at_most_once_witness :
  ~ In TimeTime (trace (_request_token prompt_host (__init__ None None)
                          ["scope"] None)).
Proof.
  apply (polls_at_most_once prompt_host (__init__ None None) ["scope"] None).
  reflexivity.
Defined.



(** [int(t)] is less than one second behind a clock reading that is not
    negative. *)
Lemma int_of_time_gt (t : Q) :
  (0 <= t)%Q -> (t < inject_Z (int_of_time t) + 1)%Q.
Proof.
  intros Ht. unfold int_of_time. destruct t as [n d].
  assert (Hnum : 0 <= n).
  { unfold Qle in Ht. cbn in Ht. lia. }
  cbn [Qnum Qden]. rewrite Z.quot_div_nonneg by lia.
  change 1%Q with (inject_Z 1). rewrite <- inject_Z_plus.
  apply (Qlt_floor (n # d)).
Qed.

(** X6. The exit condition handed to MSAL is a deadline: once true, it
    stays true at every later clock reading; and it cuts the caller's
    timeout short by less than one second, being false at every reading up
    to one second before start plus timeout (the clock not negative). *)
Theorem deadline_window (w : World) (self : DeviceCodeCredential)
  (scopes : list string) (claims : option string)
  (flow : gmap string pyval) (f : Q -> bool) (claims' : option string) :
  In (AcquireTokenByDeviceFlow flow (Some f) claims')
     (trace (_request_token w self scopes claims)) ->
  (0 <= time_time w)%Q ->
  exists timeout,
    _timeout self = Some timeout
    /\ (forall now,
           (now <= time_time w + inject_Z timeout - 1)%Q -> f now = false)
    /\ (forall now later,
           f now = true -> (now <= later)%Q -> f later = true).
Proof.
  intros Hin Hclock.
  destruct (poll_in_path _ _ _ _ _ _ _ _ _ (device_path_of _ _ _ _) Hin)
    as (observed & _ & _ & Hobs & Hec & _).
  destruct observed as [timeout |]; [| discriminate].
  injection Hec as ->.
  apply (proj1 (proj2 (observed_timeout_run self flow)) timeout) in Hobs.
  destruct Hobs as [Hsome _].
  exists timeout. split; [exact Hsome |]. split.
  - intros now Hnow.
    destruct (exit_condition (int_of_time (time_time w) + timeout) now) eqn:Hf;
      [| reflexivity].
    apply exit_condition_spec in Hf. exfalso.
    pose proof (int_of_time_gt (time_time w) Hclock) as Hgt.
    rewrite inject_Z_plus in Hf. lra.
  - intros now later Hnow Hlater.
    apply exit_condition_spec. apply exit_condition_spec in Hnow.
    eapply Qlt_le_trans; eassumption.
Qed.

Lemma deadline_window_witness :
  exists timeout,
    Some 5 = Some timeout
    /\ (forall now,
           (now <= (17000000005 # 10) + inject_Z timeout - 1)%Q ->
           exit_condition 1700000005 now = false)
    /\ (forall now later,
           exit_condition 1700000005 now = true ->
           (now <= later)%Q -> exit_condition 1700000005 later = true).
Proof.
  apply (deadline_window idle_host (__init__ (Some 5) None) ["scope"] None
           Sample.device_flow (exit_condition 1700000005) None).
  - cbv [trace _request_token idle_host Sample.device_host bind emit lift
           get_app initiate_device_flow fst snd app].
    right. right. vm_compute. right. right. left. reflexivity.
  - discriminate.
Defined.

End DeviceMore.

(** ** More on the browser flow *)

Module BrowserMore.
Import Browser BrowserSpec BrowserCases BrowserFacts.

Section Binding.
Variable self : InteractiveBrowserCredential.

(** The log of the scan, whatever the listener class does: refused
    attempts on an initial segment of the ports, then at most one more
    attempt, on the next port. *)
Lemma scan_ports_shape (ports : list Z) :
  exists n last,
    trace (scan_ports self ports)
    = map (refused self) (firstn n ports) ++ last
    /\ (last = []
        \/ exists p bound,
            last = [Bind (PyStr "localhost") (PyInt p) (_timeout self) bound]
            /\ firstn (S n) ports = firstn n ports ++ [p]
            /\ (forall srv, bound = Some srv ->
                 exists uri, outcome (scan_ports self ports)
                             = Return (Some srv, uri))).
Proof.
  induction ports as [| p rest IH].
  - exists 0%nat, []. split; [reflexivity | left; reflexivity].
  - cbn [scan_ports]. rewrite new_server_run.
    destruct (_server_class self (PyStr "localhost") (PyInt p) (_timeout self))
      as [srv | e] eqn:Hp; cbn [bind try_except ret app trace outcome fst snd].
    + exists 0%nat, [Bind (PyStr "localhost") (PyInt p) (_timeout self) (Some srv)].
      split; [reflexivity |]. right. exists p, (Some srv).
      split; [reflexivity |]. split; [reflexivity |].
      intros srv' [= <-]. eexists. reflexivity.
    + destruct e; cbn [on_socket_error];
        try (exists 0%nat,
               [Bind (PyStr "localhost") (PyInt p) (_timeout self) None];
             split; [reflexivity |]; right; exists p, None;
             split; [reflexivity |]; split; [reflexivity | discriminate]).
      destruct IH as (n & last & Ht & Hlast).
      destruct (scan_ports self rest) as [t r]. cbn [trace outcome fst snd] in *.
      exists (S n), last. split; [rewrite Ht; reflexivity |].
      destruct Hlast as [-> | (q & bound & -> & Hq & Hbound)];
        [left; reflexivity |].
      right. exists q, bound. split; [reflexivity |]. split.
      * change (firstn (S (S n)) (p :: rest)) with (p :: firstn (S n) rest).
        rewrite Hq. reflexivity.
      * exact Hbound.
Qed.

(** An exception of the scan other than [socket.error] ends it. *)
Lemma scan_ports_raises (failed : list Z) (p : Z) (rest : list Z) (e : exn) :
  Forall (taken self) failed ->
  _server_class self (PyStr "localhost") (PyInt p) (_timeout self) = Raise e ->
  not_socket_error e ->
  scan_ports self (failed ++ p :: rest)
  = (map (refused self) failed
       ++ [Bind (PyStr "localhost") (PyInt p) (_timeout self) None],
     Raise e).
Proof.
  intros Hfailed Hp Hother.
  induction Hfailed as [| q failed [msg Hq] _ IH].
  - cbn [scan_ports map app]. rewrite new_server_run, Hp.
    cbn [bind try_except]. destruct e; try reflexivity.
    exfalso. eapply Hother. reflexivity.
  - cbn [scan_ports map app]. rewrite new_server_run, Hq.
    cbn [bind try_except on_socket_error]. rewrite IH. reflexivity.
Qed.



(** The log of [start_server] in either mode. *)
Lemma start_server_shape :
  exists failed last,
    trace (start_server self) = map (refused self) failed ++ last
    /\ (_parsed_url self = None ->
        exists n,
          failed = firstn n (range 8400 600)
          /\ (last = []
              \/ exists p bound,
                  last = [Bind (PyStr "localhost") (PyInt p) (_timeout self)
                            bound]
                  /\ firstn (S n) (range 8400 600) = failed ++ [p]))
    /\ (last = []
        \/ exists host prt bound,
            last = [Bind host prt (_timeout self) bound]
            /\ (forall srv, bound = Some srv ->
                 exists uri, outcome (start_server self)
                             = Return (Some srv, uri))).
Proof.
  unfold start_server. destruct (_parsed_url self) as [parsed |].
  - exists []. destruct (port parsed) as [p | e] eqn:Hport.
    + rewrite (bind_explicit_run self parsed p Hport). cbn [trace outcome fst snd].
      eexists. split; [reflexivity |]. split; [discriminate |].
      right. eexists. eexists. eexists. split; [reflexivity |].
      intros srv Hsrv.
      destruct (_server_class self (hostname parsed) p (_timeout self));
        [| discriminate].
      injection Hsrv as <-. eexists. reflexivity.
    + unfold bind_explicit. rewrite Hport. exists [].
      split; [destruct e; reflexivity |]. split; [discriminate |].
      left. reflexivity.
  - destruct (scan_ports_shape (range 8400 600)) as (n & last & Ht & Hlast).
    exists (firstn n (range 8400 600)), last.
    split; [exact Ht |]. split.
    + intros _. exists n. split; [reflexivity |].
      destruct Hlast as [-> | (p & bound & -> & Hp & _)]; [left; reflexivity |].
      right. exists p, bound. split; [reflexivity | exact Hp].
    + destruct Hlast as [-> | (p & bound & -> & _ & Hbound)];
        [left; reflexivity |].
      right. exists (PyStr "localhost"), (PyInt p), bound.
      split; [reflexivity | exact Hbound].
Qed.

End Binding.

(** Nothing after the listener started is a bind attempt. *)
Lemma authenticate_no_bind (w : World) (self : InteractiveBrowserCredential)
  (scopes : list string) (claims : option string)
  (server : Server) (redirect_uri : string) (ev : event) :
  In ev (trace (authenticate w self scopes claims server redirect_uri)) ->
  is_bind ev = false.
Proof.
  intros Hin.
  destruct (authenticate_path_of w self scopes claims server redirect_uri);
    cbn [In] in Hin;
    repeat match type of Hin with
           | _ \/ _ => destruct Hin as [<- | Hin]; [reflexivity |]
           | In _ (_ ++ _) => apply in_app_or in Hin; destruct Hin as [Hin | Hin]
           | False => contradiction
           end;
    try (apply in_launch in Hin; destruct ev; try discriminate; reflexivity);
    try (apply in_wait in Hin; destruct ev; try discriminate; reflexivity);
    try (cbn [In] in Hin; destruct Hin as [<- | []]; reflexivity).
Qed.

Lemma bind_in_start (w : World) (self : InteractiveBrowserCredential)
  (scopes : list string) (claims : option string)
  (host prt : pyval) (timeout : Z) (bound : option Server) :
  In (Bind host prt timeout bound) (trace (_request_token w self scopes claims)) ->
  In (Bind host prt timeout bound) (trace (start_server self)).
Proof.
  rewrite request_token_run.
  destruct (outcome (start_server self)) as [[[server |] redirect_uri] | e];
    cbn [trace fst]; try (intros H; exact H).
  intros Hin. apply in_app_or in Hin. destruct Hin as [Hin | Hin]; [exact Hin |].
  apply authenticate_no_bind in Hin. discriminate.
Qed.

(** An exception of the listener class that is not [socket.error] ends the
    body of [_request_token]. *)
Lemma other_listener_errors_in_body (w : World)
  (self : InteractiveBrowserCredential)
  (scopes : list string) (claims : option string) (e : exn) :
  not_socket_error e ->
  (forall p,
      _parsed_url self = None ->
      8400 <= p <= 8999 ->
      (forall q, 8400 <= q < p -> taken self q) ->
      _server_class self (PyStr "localhost") (PyInt p) (_timeout self)
      = Raise e ->
      _request_token w self scopes claims
      = (map (refused self) (range 8400 (Z.to_nat (p - 8400)))
           ++ [Bind (PyStr "localhost") (PyInt p) (_timeout self) None],
         Raise e))
  /\ (forall parsed p,
      _parsed_url self = Some parsed ->
      port parsed = Return p ->
      _server_class self (hostname parsed) p (_timeout self) = Raise e ->
      _request_token w self scopes claims
      = ([Bind (hostname parsed) p (_timeout self) None], Raise e)).
Proof.
  intros Hother. split.
  - intros p Hdefault Hp Hbelow Hraise.
    assert (Hstart :
              start_server self
              = (map (refused self) (range 8400 (Z.to_nat (p - 8400)))
                   ++ [Bind (PyStr "localhost") (PyInt p) (_timeout self) None],
                 Raise e)).
    { unfold start_server. rewrite Hdefault.
      replace 600%nat
        with (Z.to_nat (p - 8400) + S (Z.to_nat (8999 - p)))%nat by lia.
      rewrite range_split.
      replace (8400 + Z.of_nat (Z.to_nat (p - 8400))) with p by lia.
      apply scan_ports_raises; [| exact Hraise | exact Hother].
      apply List.Forall_forall. intros q Hq. apply in_range in Hq.
      apply Hbelow. lia. }
    rewrite request_token_run, Hstart. reflexivity.
  - intros parsed p Hexplicit Hport Hraise.
    rewrite request_token_run. unfold start_server.
    rewrite Hexplicit, (bind_explicit_run self parsed p Hport), Hraise.
    cbn [trace outcome fst snd].
    destruct e; try reflexivity. exfalso. eapply Hother. reflexivity.
Qed.

(** X7. Of the exceptions of the listener class only [socket.error], that
    is [OSError] and its subclasses, is handled. One of a class known not to
    be among them ends the body of [_request_token] as it is: in the scan
    right at the port that raised it, the ports after it no longer tried;
    with an explicit target without being turned into
    [CredentialUnavailableError]. The caller gets what the decorator
    [wrap_exceptions] raises for it. *)
Theorem other_listener_errors (wrap_exceptions : exn -> exn) (w : World)
  (self : InteractiveBrowserCredential)
  (scopes : list string) (claims : option string) (e : exn) :
  not_os_error e ->
  (forall p,
      _parsed_url self = None ->
      8400 <= p <= 8999 ->
      (forall q, 8400 <= q < p -> taken self q) ->
      _server_class self (PyStr "localhost") (PyInt p) (_timeout self)
      = Raise e ->
      decorated_request_token wrap_exceptions w self scopes claims
      = (map (refused self) (range 8400 (Z.to_nat (p - 8400)))
           ++ [Bind (PyStr "localhost") (PyInt p) (_timeout self) None],
         Raise (wrap_exceptions e)))
  /\ (forall parsed p,
      _parsed_url self = Some parsed ->
      port parsed = Return p ->
      _server_class self (hostname parsed) p (_timeout self) = Raise e ->
      decorated_request_token wrap_exceptions w self scopes claims
      = ([Bind (hostname parsed) p (_timeout self) None],
         Raise (wrap_exceptions e))).
Proof.
  intros Hclass.
  assert (Hother : not_socket_error e).
  { intros msg ->. exact Hclass. }
  destruct (other_listener_errors_in_body w self scopes claims e Hother)
    as [Hscan Hexplicit].
  unfold decorated_request_token. split.
  - intros p Hdefault Hp Hbelow Hraise.
    rewrite (Hscan p Hdefault Hp Hbelow Hraise). reflexivity.
  - intros parsed p Hparsed Hport Hraise.
    rewrite (Hexplicit parsed p Hparsed Hport Hraise). reflexivity.
Qed.

Lemma other_listener_errors_witness :
  decorated_request_token Sample.wrap_exceptions (fair_host None)
    clumsy_credential ["scope"] None
  = ([Bind (PyStr "localhost") (PyInt 8400) 300 None;
      Bind (PyStr "localhost") (PyInt 8401) 300 None;
      Bind (PyStr "localhost") (PyInt 8402) 300 None],
     Raise (ClientAuthenticationError
              "Authentication failed: handler is not callable"))
  /\ decorated_request_token Sample.wrap_exceptions (fair_host None)
       clumsy_explicit_credential ["scope"] None
     = ([Bind (PyStr "localhost") (PyInt 8402) 300 None],
        Raise (ClientAuthenticationError
              "Authentication failed: handler is not callable")).
Proof.
  assert (Hother : not_os_error (TypeError "handler is not callable"))
    by exact I.
  destruct (other_listener_errors Sample.wrap_exceptions (fair_host None)
              clumsy_credential ["scope"] None _ Hother) as [Hscan _].
  destruct (other_listener_errors Sample.wrap_exceptions (fair_host None)
              clumsy_explicit_credential ["scope"] None _ Hother)
    as [_ Hexplicit].
  split.
  - apply (Hscan 8402); [reflexivity | lia | | reflexivity].
    intros q Hq. exists "Address already in use".
    cbv -[Z.ltb Z.eqb]. destruct (Z.ltb_spec q 8402); [reflexivity | lia].
  - apply (Hexplicit {| hostname := PyStr "localhost";
                        port := Return (PyInt 8402) |} (PyInt 8402));
      reflexivity.
Defined.

(** X8. In every run of [_request_token], whatever the listener class
    does: every bind attempt passes the credential's timeout, and at most
    one attempt binds; with no redirect URI configured, the attempts are on
    [localhost] and on an initial segment of the ports 8400, 8401, ... *)
Theorem bind_attempts (w : World) (self : InteractiveBrowserCredential)
  (scopes : list string) (claims : option string) :
  (forall host prt timeout bound,
      In (Bind host prt timeout bound)
         (trace (_request_token w self scopes claims)) ->
      timeout = _timeout self)
  /\ (length (bound_servers (trace (_request_token w self scopes claims)))
      <= 1)%nat
  /\ (_parsed_url self = None ->
      exists n,
        map fst (binds (trace (_request_token w self scopes claims)))
        = map (fun p => (PyStr "localhost", PyInt p))
            (firstn n (range 8400 600))).
Proof.
  destruct (start_server_shape self) as (failed & last & Ht & Hscan & Hlast).
  assert (Hbinds : forall A (f : event -> option A),
             (forall ev, is_bind ev = false -> f ev = None) ->
             omap f (trace (_request_token w self scopes claims))
             = omap f (trace (start_server self))).
  { intros A f Hf. rewrite request_token_run.
    destruct (outcome (start_server self)) as [[[server |] redirect_uri] | e];
      cbn [trace fst]; try reflexivity.
    rewrite omap_app.
    assert (Hnone : omap f (trace (authenticate w self scopes claims server
                                     redirect_uri)) = []).
    { assert (Hall : Forall (fun ev => is_bind ev = false)
                       (trace (authenticate w self scopes claims server
                                 redirect_uri))).
      { apply List.Forall_forall. intros ev. apply authenticate_no_bind. }
      induction Hall as [| ev t Hev _ IH]; [reflexivity |].
      change (omap f (ev :: t))
        with (match f ev with Some b => b :: omap f t | None => omap f t end).
      rewrite (Hf ev Hev). exact IH. }
    rewrite Hnone. apply app_nil_r. }
  assert (Hrefused : forall l,
             omap bound_of (map (refused self) l) = []
             /\ omap bind_of (map (refused self) l)
                = map (fun p => (PyStr "localhost", PyInt p, None)) l).
  { induction l as [| q l [IH1 IH2]]; [split; reflexivity |].
    split; [exact IH1 |]. cbn [map]. rewrite <- IH2. reflexivity. }
  split; [| split].
  - intros host prt timeout bound Hin. apply bind_in_start in Hin.
    rewrite Ht in Hin. apply in_app_or in Hin. destruct Hin as [Hin | Hin].
    + apply in_map_iff in Hin. destruct Hin as (q & [= _ _ <- _] & _).
      reflexivity.
    + destruct Hlast as [-> | (h & p & b & -> & _)]; [contradiction |].
      destruct Hin as [[= _ _ <- _] | []]. reflexivity.
  - unfold bound_servers. rewrite Hbinds
      by (intros ev Hev; destruct ev; try discriminate; reflexivity).
    rewrite Ht, omap_app, (proj1 (Hrefused failed)).
    destruct Hlast as [-> | (h & p & [srv |] & -> & _)]; cbn; lia.
  - intros Hdefault. destruct (Hscan Hdefault) as (n & -> & Hl).
    unfold binds. rewrite Hbinds
      by (intros ev Hev; destruct ev; try discriminate; reflexivity).
    rewrite Ht, omap_app, (proj2 (Hrefused _)).
    destruct Hl as [-> | (p & bound & -> & Hp)].
    + exists n. cbn [omap]. rewrite app_nil_r, map_map. reflexivity.
    + exists (S n). rewrite Hp, !map_app, map_map. reflexivity.
Qed.

Lemma bind_attempts_witness :
  exists n,
    map fst (binds (trace (_request_token (fair_host None) clumsy_credential
                             ["scope"] None)))
    = map (fun p => (PyStr "localhost", PyInt p)) (firstn n (range 8400 600)).
Proof.
  apply (bind_attempts (fair_host None) clumsy_credential ["scope"] None).
  reflexivity.
Defined.



(** X10. A response that Python counts as false, nothing or an empty
    mapping, is a timeout: the call raises the timeout error and makes no
    token exchange. *)
Theorem false_response_is_timeout (w : World)
  (self : InteractiveBrowserCredential)
  (scopes : list string) (claims : option string) (srv : Server)
  (response : option (gmap string string)) :
  In (WaitForRedirect srv) (trace (_request_token w self scopes claims)) ->
  outcome (wait_for_redirect w srv) = Return response ->
  truthy_response response = false ->
  outcome (_request_token w self scopes claims)
  = Raise (if within_dac_get w
           then CredentialUnavailableError (timed_out self)
           else ClientAuthenticationError (timed_out self))
  /\ forall ev,
      In ev (trace (_request_token w self scopes claims)) ->
      is_exchange ev = false.
Proof.
  intros Hin Hresp Hfalsy.
  destruct (request_token_reaches _ _ _ _ _ Hin eq_refl)
    as (server & redirect_uri & _ & Hauth & Hrun).
  destruct (waited_path _ _ _ _ _ _ _ _ _ (authenticate_path_of _ _ _ _ _ _) Hauth)
    as (-> & _ & _ & _ & _ & _).
  rewrite Hrun. cbn [trace outcome fst snd].
  pose proof (start_server_binds self) as Hbinds.
  rewrite List.Forall_forall in Hbinds.
  destruct (authenticate_path_of w self scopes claims server redirect_uri)
    as [e0 Happ | e0 Happ Hflow | flow Happ Hflow Hauth'
       | flow auth_uri Happ Hflow Hauth' Hopen
       | flow auth_uri response' Happ Hflow Hauth' Hopen Hresp' Hfalsy'
       | flow auth_uri response' Happ Hflow Hauth' Hopen Hresp' Htruthy];
    try (exfalso; cbn [In] in Hauth; unfold initiate_event in Hauth;
         repeat (destruct Hauth as [Hauth | Hauth]; [discriminate |]);
         first [contradiction | apply in_launch in Hauth; discriminate]).
  - split; [unfold timeout_error; destruct (within_dac_get w); reflexivity |].
    intros ev Hev. apply in_app_or in Hev. destruct Hev as [Hev | Hev].
    + apply Hbinds in Hev. destruct ev; try discriminate; reflexivity.
    + cbn [In] in Hev. unfold initiate_event in Hev.
      destruct Hev as [<- | [<- | Hev]]; try reflexivity.
      apply in_app_or in Hev. destruct Hev as [Hev | Hev].
      * apply in_launch in Hev. destruct ev; try discriminate; reflexivity.
      * apply in_wait in Hev. destruct ev; try discriminate; reflexivity.
  - exfalso. congruence.
Qed.

Lemma false_response_is_timeout_witness :
  outcome (_request_token (fair_host (Some ∅))
             (Sample.credential (fair_host (Some ∅)) Sample.no_kwargs)
             ["scope"] None)
  = Raise (CredentialUnavailableError
             "Timed out after waiting 300 seconds for the user to authenticate")
  /\ forall ev,
      In ev (trace (_request_token (fair_host (Some ∅))
                      (Sample.credential (fair_host (Some ∅)) Sample.no_kwargs)
                      ["scope"] None)) ->
      is_exchange ev = false.
Proof.
  apply (false_response_is_timeout (fair_host (Some ∅))
           (Sample.credential (fair_host (Some ∅)) Sample.no_kwargs)
           ["scope"] None first_listener (Some ∅)).
  - vm_compute. do 4 right. left. reflexivity.
  - reflexivity.
  - vm_compute. reflexivity.
Defined.

(** X11. A token exchange, when [_request_token] makes one, is its last
    call and the only exchange of the run; it comes after the wait on the
    listener, and carries a response that Python counts as true, the one
    that wait returned. *)
Theorem exchange_comes_last (w : World) (self : InteractiveBrowserCredential)
  (scopes : list string) (claims : option string)
  (flow : gmap string pyval) (response : option (gmap string string))
  (scopes' : list string) (claims' : option string) :
  In (AcquireTokenByAuthCodeFlow flow response scopes' claims')
     (trace (_request_token w self scopes claims)) ->
  truthy_response response = true
  /\ exists before srv,
      trace (_request_token w self scopes claims)
      = before ++ [AcquireTokenByAuthCodeFlow flow response scopes' claims']
      /\ Forall (fun ev => is_exchange ev = false) before
      /\ In (WaitForRedirect srv) before
      /\ outcome (wait_for_redirect w srv) = Return response.
Proof.
  intros Hin.
  destruct (request_token_reaches _ _ _ _ _ Hin eq_refl)
    as (server & redirect_uri & _ & Hauth & Hrun).
  rewrite Hrun. cbn [trace fst].
  pose proof (start_server_binds self) as Hbinds.
  destruct (authenticate_path_of w self scopes claims server redirect_uri)
    as [e0 Happ | e0 Happ Hflow | flow0 Happ Hflow Hauth'
       | flow0 auth_uri Happ Hflow Hauth' Hopen
       | flow0 auth_uri response' Happ Hflow Hauth' Hopen Hresp' Hfalsy'
       | flow0 auth_uri response' Happ Hflow Hauth' Hopen Hresp' Htruthy];
    cbn [In] in Hauth; unfold initiate_event in Hauth;
    try (exfalso;
         repeat (destruct Hauth as [Hauth | Hauth]; [discriminate |]);
         first [ contradiction
               | apply in_launch in Hauth; discriminate
               | apply in_app_or in Hauth; destruct Hauth as [Hauth | Hauth];
                 [ apply in_launch in Hauth; discriminate
                 | apply in_wait in Hauth; discriminate ] ]).
  destruct Hauth as [Hauth | [Hauth | Hauth]]; try discriminate.
  apply in_app_or in Hauth. destruct Hauth as [Hauth | Hauth];
    [apply in_launch in Hauth; discriminate |].
  apply in_app_or in Hauth. destruct Hauth as [Hauth | Hauth];
    [apply in_wait in Hauth; discriminate |].
  destruct Hauth as [[= <- <- <- <-] | []].
  split; [exact Htruthy |].
  exists (trace (start_server self)
          ++ GetApp :: initiate_event self scopes claims redirect_uri
          :: trace (_open_browser w auth_uri)
          ++ trace (wait_for_redirect w server)), server.
  split; [| split; [| split]].
  - rewrite <- !app_assoc. cbn [app]. rewrite <- !app_assoc. reflexivity.
  - apply List.Forall_app. split.
    + eapply List.Forall_impl; [| exact Hbinds].
      intros ev Hev. destruct ev; try discriminate; reflexivity.
    + constructor; [reflexivity |]. constructor; [reflexivity |].
      apply List.Forall_app. split; apply List.Forall_forall; intros ev Hev.
      * apply in_launch in Hev. destruct ev; try discriminate; reflexivity.
      * apply in_wait in Hev. destruct ev; try discriminate; reflexivity.
  - apply in_or_app. right. right. right. apply in_or_app. right.
    rewrite wait_for_redirect_run. left. reflexivity.
  - exact Hresp'.
Qed.

Lemma exchange_comes_last_witness :
  truthy_response (Some Sample.code_params) = true
  /\ exists before srv,
      trace (_request_token (fair_host (Some Sample.code_params))
               (Sample.credential (fair_host (Some Sample.code_params))
                  Sample.no_kwargs) ["scope"] None)
      = before ++ [AcquireTokenByAuthCodeFlow Sample.auth_flow
                     (Some Sample.code_params) ["scope"] None]
      /\ Forall (fun ev => is_exchange ev = false) before
      /\ In (WaitForRedirect srv) before
      /\ outcome (wait_for_redirect (fair_host (Some Sample.code_params)) srv)
         = Return (Some Sample.code_params).
Proof.
  apply (exchange_comes_last (fair_host (Some Sample.code_params))
           (Sample.credential (fair_host (Some Sample.code_params))
              Sample.no_kwargs) ["scope"] None).
  vm_compute. do 7 right. left. reflexivity.
Defined.

(** X12. Of a configured [redirect_uri] only the parsed host and port
    reach MSAL: for a credential that [__init__] built from it, the
    redirect URI given to [initiate_auth_code_flow] is "http://HOST:PORT",
    whatever scheme, letter case of the host or path the configured one
    has. *)
Theorem redirect_uri_rebuilt (w : World) (kw : kwargs)
  (self : InteractiveBrowserCredential)
  (scopes : list string) (claims : option string) (uri : string)
  (scopes' : list string) (redirect_uri prompt : string)
  (claims' hint : option string) :
  __init__ w kw = Return self ->
  kw_redirect_uri kw = Some uri ->
  uri <> "" ->
  In (InitiateAuthCodeFlow scopes' redirect_uri prompt claims' hint)
     (trace (_request_token w self scopes claims)) ->
  exists p,
    port (urlparse w uri) = Return p
    /\ redirect_uri
       = "http://" +:+ format_py (hostname (urlparse w uri))
         +:+ ":" +:+ format_py p.
Proof.
  intros Hinit Huri Hne Hin.
  assert (Hparsed : exists p,
             _parsed_url self = Some (urlparse w uri)
             /\ port (urlparse w uri) = Return p).
  { revert Hinit. unfold __init__, parse_redirect_uri. rewrite Huri.
    assert (Ht : truthy (PyStr uri) = true).
    { cbn [truthy]. destruct (String.eqb_spec uri ""); [contradiction | reflexivity]. }
    rewrite Ht. destruct (truthy (hostname (urlparse w uri))); [| discriminate].
    destruct (port (urlparse w uri)) as [p | e]; [| discriminate].
    destruct (truthy p); [| discriminate].
    intros [= <-]. exists p. split; reflexivity. }
  destruct Hparsed as (p & Hparsed & Hport). exists p. split; [exact Hport |].
  destruct (request_token_reaches _ _ _ _ _ Hin eq_refl)
    as (server & uri' & Hstart & Hauth & _).
  destruct (initiate_in_path _ _ _ _ _ _ _ _ _ _ _ _ _
              (authenticate_path_of _ _ _ _ _ _) Hauth) as (-> & _).
  revert Hstart. unfold start_server.
  rewrite Hparsed, (bind_explicit_run self _ p Hport). cbn [outcome snd].
  destruct (_server_class self (hostname (urlparse w uri)) p (_timeout self))
    as [srv | e]; [| destruct e; discriminate].
  intros [= _ <-]. reflexivity.
Qed.

Lemma redirect_uri_rebuilt_witness :
  exists p,
    port (parse_callback "https://LocalHost:8400/callback") = Return p
    /\ "http://localhost:8400"
       = "http://"
         +:+ format_py (hostname (parse_callback "https://LocalHost:8400/callback"))
         +:+ ":" +:+ format_py p.
Proof.
  apply (redirect_uri_rebuilt (fair_host (Some Sample.code_params))
           (Sample.with_redirect_uri "https://LocalHost:8400/callback")
           callback_credential ["scope"] None
           "https://LocalHost:8400/callback"
           ["scope"] "http://localhost:8400" "select_account" None None).
  - reflexivity.
  - reflexivity.
  - discriminate.
  - vm_compute. do 2 right. left. reflexivity.
Defined.

(** X13. A call that bound a listener and did not get as far as waiting
    on it has failed, and ends with that listener still bound: the body
    has no release of its own. *)
Theorem listener_kept_on_failure (w : World)
  (self : InteractiveBrowserCredential)
  (scopes : list string) (claims : option string)
  (host prt : pyval) (timeout : Z) (server : Server) :
  In (Bind host prt timeout (Some server))
     (trace (_request_token w self scopes claims)) ->
  (forall srv,
      ~ In (WaitForRedirect srv) (trace (_request_token w self scopes claims))) ->
  (exists e, outcome (_request_token w self scopes claims) = Raise e)
  /\ still_bound (trace (_request_token w self scopes claims)) [] = [server].
Proof.
  intros Hbind Hnowait. apply bind_in_start in Hbind.
  destruct (start_server_shape self) as (failed & last & Ht & _ & Hlast).
  assert (Hstart : exists uri h p,
             outcome (start_server self) = Return (Some server, uri)
             /\ last = [Bind h p (_timeout self) (Some server)]).
  { rewrite Ht in Hbind. apply in_app_or in Hbind.
    destruct Hbind as [Hbind | Hbind].
    - apply in_map_iff in Hbind. destruct Hbind as (q & Hq & _). discriminate.
    - destruct Hlast as [-> | (h & p & bound & -> & Hbound)]; [contradiction |].
      destruct Hbind as [[= _ _ _ ->] | []].
      destruct (Hbound server eq_refl) as (uri & Huri).
      exists uri, h, p. split; [exact Huri | reflexivity]. }
  destruct Hstart as (uri & h & p & Hstart & ->).
  revert Hnowait. rewrite request_token_run, Hstart, Ht.
  cbn [trace outcome fst snd]. intros Hnowait.
  assert (Hkeep : forall url bound,
             still_bound (trace (_open_browser w url)) bound = bound).
  { intros url bound. apply still_bound_keeps.
    eapply List.Forall_impl; [| apply (launch_keeps w url)].
    intros ev [H _]; exact H. }
  rewrite !still_bound_app, still_bound_refused. cbn [still_bound].
  destruct (authenticate_path_of w self scopes claims server uri)
    as [e0 Happ | e0 Happ Hflow | flow Happ Hflow Hauth
       | flow auth_uri Happ Hflow Hauth Hopen
       | flow auth_uri response Happ Hflow Hauth Hopen Hresp Hfalsy
       | flow auth_uri response Happ Hflow Hauth Hopen Hresp Htruthy].
  1-3: split; [eexists; reflexivity | reflexivity].
  - split; [eexists; reflexivity |]. cbn [still_bound initiate_event].
    apply Hkeep.
  - exfalso. apply (Hnowait server). apply in_or_app. right. right. right.
    apply in_or_app. right. rewrite wait_for_redirect_run. left. reflexivity.
  - exfalso. apply (Hnowait server). apply in_or_app. right. right. right.
    apply in_or_app. right. apply in_or_app. left.
    rewrite wait_for_redirect_run. left. reflexivity.
Qed.

Lemma listener_kept_on_failure_witness :
  (exists e,
      outcome (_request_token no_app_host
                 (Sample.credential no_app_host Sample.no_kwargs)
                 ["scope"] None) = Raise e)
  /\ still_bound
       (trace (_request_token no_app_host
                 (Sample.credential no_app_host Sample.no_kwargs)
                 ["scope"] None)) []
     = [first_listener].
Proof.
  apply (listener_kept_on_failure no_app_host
           (Sample.credential no_app_host Sample.no_kwargs) ["scope"] None
           (PyStr "localhost") (PyInt 8400) 300 first_listener).
  - vm_compute. left. reflexivity.
  - intros srv. vm_compute. intros [H | [H | []]]; discriminate.
Defined.

(** X14. What [__init__] has done when it returns a credential, the call
    of the base class's [__init__] that ends it having returned as well:
    the [redirect_uri] was absent or empty, or [urlparse] returned for it a
    parse with a true hostname and a [port] that returns a true value; the
    credential takes the login hint and listener class given, the timeout
    given or 300, and scans the ports exactly when the [redirect_uri] was
    absent or empty. And where [urlparse] returns a parse with a hostname
    whose [port] raises, that error is the constructor's. *)
Theorem init_accepts (w : World) (kw : kwargs) :
  (forall self,
      __init__ w kw = Return self ->
      (kw_redirect_uri kw = None
       \/ kw_redirect_uri kw = Some ""
       \/ exists uri p,
           kw_redirect_uri kw = Some uri
           /\ truthy (hostname (urlparse w uri)) = true
           /\ port (urlparse w uri) = Return p
           /\ truthy p = true)
      /\ _login_hint self = kw_login_hint kw
      /\ _timeout self = default 300 (kw_timeout kw)
      /\ _server_class self
         = default (AuthCodeRedirectServer w) (kw_server_class kw)
      /\ (_parsed_url self = None <->
          kw_redirect_uri kw = None \/ kw_redirect_uri kw = Some ""))
  /\ (forall uri e,
      kw_redirect_uri kw = Some uri ->
      uri <> "" ->
      truthy (hostname (urlparse w uri)) = true ->
      port (urlparse w uri) = Raise e ->
      __init__ w kw = Raise e).
Proof.
  unfold __init__, parse_redirect_uri.
  destruct (kw_redirect_uri kw) as [uri |].
  2: { split.
       - intros self [= <-]. cbn. repeat split; auto.
       - discriminate. }
  cbn [truthy]. destruct (String.eqb_spec uri "") as [-> | Hne]; cbn [negb].
  { split.
    - intros self [= <-]. cbn. repeat split; auto.
    - intros uri e [= <-]. contradiction. }
  destruct (truthy (hostname (urlparse w uri))) eqn:Hhost.
  2: { split; [discriminate |]. intros u e [= <-] _ Hh. congruence. }
  destruct (port (urlparse w uri)) as [p | e] eqn:Hport.
  2: { split; [discriminate |]. intros u e' [= <-] _ _ Hp. congruence. }
  destruct (truthy p) eqn:Hp.
  2: { split; [discriminate |]. intros u e [= <-] _ _ Hp'. congruence. }
  split.
  - intros self [= <-]. cbn. repeat split; auto.
    + right. right. exists uri, p. auto.
    + discriminate.
    + intros [H | [= H]]; [discriminate | contradiction].
  - intros u e [= <-] _ _ Hp'. congruence.
Qed.

Lemma init_accepts_witness :
  exists self,
    __init__ (fair_host None)
      (Sample.with_redirect_uri "https://LocalHost:8400/callback")
    = Return self
    /\ _timeout self = 300
    /\ _login_hint self = None
    /\ _parsed_url self <> None.
Proof.
  destruct (__init__ (fair_host None)
              (Sample.with_redirect_uri "https://LocalHost:8400/callback"))
    as [self | e] eqn:Hself; [| vm_compute in Hself; discriminate].
  exists self. split; [reflexivity |].
  destruct (proj1 (init_accepts (fair_host None)
                     (Sample.with_redirect_uri
                        "https://LocalHost:8400/callback")) self Hself)
    as (_ & Hhint & Htimeout & _ & Hparsed).
  split; [exact Htimeout |]. split; [exact Hhint |].
  intros Hnone. apply Hparsed in Hnone.
  destruct Hnone as [H | H]; discriminate.
Defined.

End BrowserMore.
